(** * PodcastPreferences: thresholding and pair construction

    A shallow embedding of the notebook [PodcastPreferences.ipynb]: the
    thresholding cell ([liked], [disliked], [multiprefs_liked],
    [multiprefs_disliked]) and the pair-construction cell
    ([get_dissimilar_pair], [both], [potential_similar_pairs],
    [potential_dissimilar_pairs]).

    NumPy arrays are objects in a store, so that the in-place update
    [disliked[disliked > 0] = -1] is an update of one location; Python's
    [random] module is a generator state threaded through the calls; the
    [while] loop of [get_dissimilar_pair] runs on fuel.  The matrix
    [normed] is taken as the normalisation left it: the cells before it
    (NumPy's seeded generator, the dot products, [normalize]) compute in
    floating point and are not embedded. *)

From stdpp Require Import base list strings pretty gmap.
From Stdlib Require Import ZArith QArith Lqa Lia.

Local Open Scope Z_scope.

(** ** IEEE doubles, as far as comparisons see them *)

Module Float.

(** A double is a NaN, an infinity, or a finite (rational) value; the two
    zeros compare equal and are both [Fin 0]. *)
Inductive float64 : Type :=
| NaN
| NInf
| PInf
| Fin (q : Q).

Definition Qlt_bool (p q : Q) : bool := negb (Qle_bool q p).

(** [a < b]: false as soon as one side is a NaN. *)
Definition lt (a b : float64) : bool :=
  match a, b with
  | NaN, _ | _, NaN => false
  | _, NInf => false
  | NInf, _ => true
  | PInf, _ => false
  | Fin _, PInf => true
  | Fin p, Fin q => Qlt_bool p q
  end.

(** [a > b] is [b < a]. *)
Definition gt (a b : float64) : bool := lt b a.

(** Unary minus: exact. *)
Definition neg (a : float64) : float64 :=
  match a with
  | NaN => NaN
  | NInf => PInf
  | PInf => NInf
  | Fin q => Fin (- q)
  end.

Definition zero : float64 := Fin 0.

End Float.

(** ** [numpy.int64] arithmetic *)

Module Int64.

Definition min_int : Z := - 2 ^ 63.
Definition max_int : Z := 2 ^ 63 - 1.

(** [astype(int)] gives NumPy's default integer, taken here at 64 bits.
    Two's complement wrap-around into [min_int .. max_int]. *)
Definition wrap (z : Z) : Z := (z + 2 ^ 63) mod 2 ^ 64 - 2 ^ 63.

Definition add (a b : Z) : Z := wrap (a + b).
Definition neg (a : Z) : Z := wrap (- a).

Definition in_range (z : Z) : Prop := min_int <= z <= max_int.

End Int64.

(** ** The NumPy operations the notebook uses *)

Module Numpy.

Abbreviation matrix A := (list (list A)) (only parsing).

(** [m > t] and [m < t] against a scalar, elementwise. *)
Definition gt_scalar (m : matrix Float.float64) (t : Float.float64) : matrix bool :=
  fmap (M:=list) (fmap (M:=list) (fun x => Float.gt x t)) m.

Definition lt_scalar (m : matrix Float.float64) (t : Float.float64) : matrix bool :=
  fmap (M:=list) (fmap (M:=list) (fun x => Float.lt x t)) m.

(** [.astype(int)] on a boolean array. *)
Definition astype_int (m : matrix bool) : matrix Z :=
  fmap (M:=list) (fmap (M:=list) (fun b : bool => if b then 1 else 0)) m.

(** [.sum()] of one row, accumulated in int64. *)
Definition sum_row (row : list Z) : Z :=
  foldr Int64.add 0 row.

(** [m.sum(axis=1)]. *)
Definition sum_axis1 (m : matrix Z) : list Z := fmap (M:=list) sum_row m.

(** [v > k] on an integer vector. *)
Definition vec_gt (v : list Z) (k : Z) : list bool :=
  fmap (M:=list) (fun s => k <? s) v.

(** [m[m > 0] = v]: every cell above zero is overwritten. *)
Definition assign_where_pos (m : matrix Z) (v : Z) : matrix Z :=
  fmap (M:=list) (fmap (M:=list) (fun x => if 0 <? x then v else x)) m.

(** [a + b] on integer matrices of one shape (the notebook adds [liked]
    and [disliked], both shaped like [normed]). *)
Definition add (a b : matrix Z) : matrix Z :=
  zip_with (zip_with Int64.add) a b.

(** [a + b] on boolean vectors: logical or. *)
Definition bool_add (a b : list bool) : list bool :=
  zip_with orb a b.

(** [m[mask]] with a boolean vector of one flag per row: the rows whose
    flag is set, in order. *)
Fixpoint mask_rows {A : Type} (m : list A) (mask : list bool) : list A :=
  match m, mask with
  | r :: m', b :: mask' =>
      if b then r :: mask_rows m' mask' else mask_rows m' mask'
  | _, _ => []
  end.

(** [np.where(row == v)[0]]: the positions holding [v], ascending, as
    naturals; [where_from i] numbers the head of the row [i]. *)
Fixpoint where_from (i : nat) (v : Z) (row : list Z) : list nat :=
  match row with
  | [] => []
  | x :: row' =>
      if x =? v then i :: where_from (S i) v row'
      else where_from (S i) v row'
  end.

Definition where_eq (v : Z) (row : list Z) : list nat := where_from 0 v row.

End Numpy.

(** ** [itertools.permutations(pool, 2)] *)

Module Itertools.

(** The tuples of two different positions of the pool, in the order of
    the positions: [(pool[i], pool[j])] for [i], then [j], ascending,
    [j <> i]. *)
Definition permutations2 {A : Type} (pool : list A) : list (A * A) :=
  let n := length pool in
  flat_map (fun i =>
    flat_map (fun j =>
      if Nat.eqb i j then []
      else match pool !! i, pool !! j with
           | Some a, Some b => [(a, b)]
           | _, _ => []
           end) (seq 0 n)) (seq 0 n).

End Itertools.

(** ** Python's [random] module *)

(** The generator behind [random.choices] and [random.sample]: a state and
    the two draws the notebook asks of it.  [draw_index n] is the position
    [random.choices] picks in a population of [n] rows; [draw_pair n] is
    [random.sample(range(n), 2)].  The laws are the library's contract: a
    position inside the population, two different positions of the range. *)
Class RandomSource (G : Type) : Type := {
  draw_index : nat -> G -> nat * G;
  draw_pair : nat -> G -> (nat * nat) * G;
  draw_index_lt : forall n g, (0 < n)%nat -> (fst (draw_index n g) < n)%nat;
  draw_pair_lt_l : forall n g, (2 <= n)%nat -> (fst (fst (draw_pair n g)) < n)%nat;
  draw_pair_lt_r : forall n g, (2 <= n)%nat -> (snd (fst (draw_pair n g)) < n)%nat;
  draw_pair_ne : forall n g, (2 <= n)%nat ->
    fst (fst (draw_pair n g)) <> snd (fst (draw_pair n g))
}.

(** ** Store, exceptions and the notebook's monad *)

(** The arrays of the notebook: 2-d float64, 2-d integer, 1-d boolean. *)
Inductive ndarray : Type :=
| FloatMatrix (m : Numpy.matrix Float.float64)
| IntMatrix (m : Numpy.matrix Z)
| BoolVector (v : list bool).

(** A reference to an array object: its position in the store. *)
Definition loc : Type := nat.

(** The exceptions of the embedded code; [TypeError] stands for a name
    that does not hold the kind of array an operation needs. *)
Inductive exn : Type :=
| IndexError
| ValueError
| TypeError
| UnboundLocalError.

(** How a computation ends; [OutOfFuel] is a loop still running when the
    fuel is spent. *)
Inductive outcome (A : Type) : Type :=
| Return (a : A)
| Raise (e : exn)
| OutOfFuel.

Arguments Return {A} a.
Arguments Raise {A} e.
Arguments OutOfFuel {A}.

(** ** The notebook's names *)

(** After the thresholding cell: the arrays are references into the store,
    [threshold] is a Python float. *)
Record thresholded : Type := Thresholded {
  normed : loc;
  threshold : Float.float64;
  liked : loc;
  disliked : loc;
  multiprefs_liked : loc;
  multiprefs_disliked : loc
}.

(** After the pair-construction cell: the earlier names, and the new ones. *)
Record paired : Type := Paired {
  earlier : thresholded;
  both : loc;
  contains_similar : loc;
  potential_similar_pairs : list (nat * nat);
  unique_similar_pairs : gset (nat * nat);
  potential_dissimilar_pairs : list (nat * nat)
}.

Section Notebook.

Context {G : Type} `{RandomSource G}.

(** What a cell can read and change: the array objects, the state of the
    [random] module, and what has been printed. *)
Record world : Type := World {
  heap : list ndarray;
  rng : G;
  stdout : list string
}.

Definition M (A : Type) : Type := world -> outcome A * world.

#[global] Instance M_ret : MRet M := fun A a w => (Return a, w).

#[global] Instance M_bind : MBind M := fun A B f m w =>
  match m w with
  | (Return a, w') => f a w'
  | (Raise e, w') => (Raise e, w')
  | (OutOfFuel, w') => (OutOfFuel, w')
  end.

Definition raise {A : Type} (e : exn) : M A := fun w => (Raise e, w).

Definition out_of_fuel {A : Type} : M A := fun w => (OutOfFuel, w).

(** A new array object; its reference is returned. *)
Definition alloc (a : ndarray) : M loc := fun w =>
  (Return (length (heap w)),
   {| heap := heap w ++ [a]; rng := rng w; stdout := stdout w |}).

Definition load (l : loc) : M ndarray := fun w =>
  match heap w !! l with
  | Some a => (Return a, w)
  | None => (Raise TypeError, w)
  end.

(** In-place update of the object at [l]. *)
Definition store (l : loc) (a : ndarray) : M unit := fun w =>
  (Return tt,
   {| heap := <[l := a]> (heap w); rng := rng w; stdout := stdout w |}).

Definition load_float (l : loc) : M (Numpy.matrix Float.float64) :=
  a ← load l;
  match a with FloatMatrix m => mret m | _ => raise TypeError end.

Definition load_int (l : loc) : M (Numpy.matrix Z) :=
  a ← load l;
  match a with IntMatrix m => mret m | _ => raise TypeError end.

Definition load_bool (l : loc) : M (list bool) :=
  a ← load l;
  match a with BoolVector v => mret v | _ => raise TypeError end.

Definition print (s : string) : M unit := fun w =>
  (Return tt, {| heap := heap w; rng := rng w; stdout := stdout w ++ [s] |}).

(** [random.choices(population)[0]]: a position is drawn, then the
    population is indexed; an empty population has no position 0. *)
Definition random_choices1 {A : Type} (population : list A) : M A := fun w =>
  let '(k, g) := draw_index (length population) (rng w) in
  let w' := {| heap := heap w; rng := g; stdout := stdout w |} in
  match population !! k with
  | Some x => (Return x, w')
  | None => (Raise IndexError, w')
  end.

(** [random.sample(range(n), 2)]: refused when the range is shorter than
    the sample. *)
Definition random_sample2 (n : nat) : M (nat * nat) := fun w =>
  if (n <? 2)%nat then (Raise ValueError, w)
  else
    let '(p, g) := draw_pair n (rng w) in
    (Return p, {| heap := heap w; rng := g; stdout := stdout w |}).

(** [row[i]] for a non-negative [i]. *)
Definition getitem (row : list Z) (i : nat) : M Z :=
  match row !! i with
  | Some x => mret x
  | None => raise IndexError
  end.

(** *** [get_dissimilar_pair] *)

(** The locals the [while] loop reads and writes. *)
Record locals : Type := Locals {
  resample : bool;
  attempts : Z;
  pod_ixs : option (nat * nat)
}.

(** The test of the [if]: both polarities are read at [first_pod_ix]. *)
Definition polarity_test (chosen_person : list Z) (first_pod_ix second_pod_ix : nat)
  : M bool :=
  first_pod_polarity ← getitem chosen_person first_pod_ix;
  second_pod_polarity ← getitem chosen_person first_pod_ix;
  mret ((first_pod_polarity =? 0) || (second_pod_polarity =? 0)
        || (first_pod_polarity =? Int64.neg second_pod_polarity)).

(** One pass through the body of [while resample:].  No statement of the
    body assigns [attempts]: every branch hands it on as it came. *)
Definition loop_body (num_pods : nat) (chosen_person : list Z) (v : locals)
  : M locals :=
  '(first_pod_ix, second_pod_ix) ← random_sample2 num_pods;
  accepted ← polarity_test chosen_person first_pod_ix second_pod_ix;
  if accepted : bool then
    mret {| resample := false; attempts := attempts v;
            pod_ixs := Some (first_pod_ix, second_pod_ix) |}
  else if 1000 <? attempts v then
    _ ← print "This person either liked everything, or disliked everything.";
    mret {| resample := false; attempts := attempts v;
            pod_ixs := Some (first_pod_ix, second_pod_ix) |}
  else
    mret {| resample := resample v; attempts := attempts v;
            pod_ixs := Some (first_pod_ix, second_pod_ix) |}.

(** [while resample:], one unit of fuel per pass. *)
Fixpoint while_resample (fuel : nat) (num_pods : nat) (chosen_person : list Z)
    (v : locals) : M locals :=
  if resample v then
    match fuel with
    | O => out_of_fuel
    | S fuel' =>
        v' ← loop_body num_pods chosen_person v;
        while_resample fuel' num_pods chosen_person v'
    end
  else mret v.

(** [# Choose a random person.]: a row of the array passed in. *)
Definition choose_person (both : loc) : M (list Z) :=
  population ← load_int both;
  random_choices1 population.

(** [get_dissimilar_pair(both)]; [num_pods] is the notebook's global, and
    [return (first_pod_ix, second_pod_ix)] needs the loop to have bound
    them. *)
Definition get_dissimilar_pair (fuel : nat) (num_pods : nat) (both : loc)
  : M (nat * nat) :=
  chosen_person ← choose_person both;
  v ← while_resample fuel num_pods chosen_person
        {| resample := true; attempts := 0; pod_ixs := None |};
  match pod_ixs v with
  | Some p => mret p
  | None => raise UnboundLocalError
  end.

(** *** The thresholding cell *)

(** [np.sum(mask)]: the number of set flags. *)
Definition count_true (mask : list bool) : nat :=
  length (List.filter (fun b : bool => b) mask).

(** The cell from [threshold = ...] on; [normed] is the array the
    normalisation left in the store. *)
Definition threshold_cell (normed : loc) (threshold : Float.float64)
  : M thresholded :=
  n ← load_float normed;
  liked ← alloc (IntMatrix (Numpy.astype_int (Numpy.gt_scalar n threshold)));
  n ← load_float normed;
  disliked ← alloc (IntMatrix
                (Numpy.astype_int (Numpy.lt_scalar n (Float.neg threshold))));
  l ← load_int liked;
  multiprefs_liked ← alloc (BoolVector (Numpy.vec_gt (Numpy.sum_axis1 l) 1));
  d ← load_int disliked;
  multiprefs_disliked ← alloc (BoolVector (Numpy.vec_gt (Numpy.sum_axis1 d) 1));
  ml ← load_bool multiprefs_liked;
  _ ← print ("Number of people with 2 or more liked podcasts: "
             +:+ pretty (count_true ml));
  md ← load_bool multiprefs_disliked;
  _ ← print ("Number of people with 2 or more disliked podcasts: "
             +:+ pretty (count_true md));
  mret {| normed := normed; threshold := threshold;
          liked := liked; disliked := disliked;
          multiprefs_liked := multiprefs_liked;
          multiprefs_disliked := multiprefs_disliked |}.

(** *** The pair-construction cell *)

(** One pass of [for person in both[mask]:], for the polarity [v]:
    [potential_similar_pairs += list(permutations(np.where(person == v)[0], 2))]. *)
Definition extend_similar (v : Z) (pairs : list (nat * nat)) (person : list Z)
  : list (nat * nat) :=
  pairs ++ Itertools.permutations2 (Numpy.where_eq v person).

(** [for i in range(n):] one call of [get_dissimilar_pair], appended. *)
Fixpoint sample_dissimilar (fuel : nat) (num_pods : nat) (both : loc)
    (n : nat) (pairs : list (nat * nat)) : M (list (nat * nat)) :=
  match n with
  | O => mret pairs
  | S n' =>
      dissimilar_pair ← get_dissimilar_pair fuel num_pods both;
      sample_dissimilar fuel num_pods both n' (pairs ++ [dissimilar_pair])
  end.

(** The cell from [disliked[disliked > 0] = -1] to
    [potential_dissimilar_pairs = []]. *)
Definition similar_part (ns : thresholded) : M paired :=
  d ← load_int (disliked ns);
  _ ← store (disliked ns) (IntMatrix (Numpy.assign_where_pos d (-1)));
  l ← load_int (liked ns);
  d ← load_int (disliked ns);
  both ← alloc (IntMatrix (Numpy.add l d));
  ml ← load_bool (multiprefs_liked ns);
  md ← load_bool (multiprefs_disliked ns);
  contains_similar ← alloc (BoolVector (Numpy.bool_add ml md));
  b ← load_int both;
  ml ← load_bool (multiprefs_liked ns);
  let potential_similar_pairs :=
    foldl (extend_similar 1) [] (Numpy.mask_rows b ml) in
  b ← load_int both;
  md ← load_bool (multiprefs_disliked ns);
  let potential_similar_pairs :=
    foldl (extend_similar (-1)) potential_similar_pairs (Numpy.mask_rows b md) in
  let unique_similar_pairs : gset (nat * nat) :=
    list_to_set potential_similar_pairs in
  mret {| earlier := ns; both := both; contains_similar := contains_similar;
          potential_similar_pairs := potential_similar_pairs;
          unique_similar_pairs := unique_similar_pairs;
          potential_dissimilar_pairs := [] |}.

(** The rest of the cell: the sampling loop, which calls
    [get_dissimilar_pair(both)]. *)
Definition dissimilar_part (fuel : nat) (num_pods : nat) (ps : paired)
  : M paired :=
  potential_dissimilar_pairs ←
    sample_dissimilar fuel num_pods (both ps)
      (length (potential_similar_pairs ps)) [];
  mret {| earlier := earlier ps; both := both ps;
          contains_similar := contains_similar ps;
          potential_similar_pairs := potential_similar_pairs ps;
          unique_similar_pairs := unique_similar_pairs ps;
          potential_dissimilar_pairs := potential_dissimilar_pairs |}.

Definition pair_cell (fuel : nat) (num_pods : nat) (ns : thresholded)
  : M paired :=
  ps ← similar_part ns;
  dissimilar_part fuel num_pods ps.

(** Both cells in the order of the notebook. *)
Definition notebook (fuel : nat) (num_pods : nat) (normed : loc)
    (threshold : Float.float64) : M paired :=
  ns ← threshold_cell normed threshold;
  pair_cell fuel num_pods ns.

End Notebook.

Arguments world G : clear implicits.
Arguments M G A : clear implicits.

(** ** A generator that reads its draws off a tape *)

(** The state is the list of raw draws still to come; an exhausted tape
    yields 0.  A raw draw is reduced into the range asked for; the second
    position of a pair is drawn among the remaining ones. *)
Definition tape_next (g : list nat) : nat * list nat :=
  match g with
  | [] => (0%nat, [])
  | r :: g' => (r, g')
  end.

Definition tape_index (n : nat) (g : list nat) : nat * list nat :=
  let '(r, g') := tape_next g in (r mod n, g')%nat.

Definition tape_pair (n : nat) (g : list nat) : (nat * nat) * list nat :=
  let '(r1, g1) := tape_next g in
  let '(r2, g2) := tape_next g1 in
  let a := (r1 mod n)%nat in
  let b := (r2 mod (n - 1))%nat in
  ((a, if (b <? a)%nat then b else S b), g2).

#[global, refine] Instance tape_source : RandomSource (list nat) := {|
  draw_index := tape_index;
  draw_pair := tape_pair
|}.
Proof.
  - intros n g Hn. unfold tape_index. destruct (tape_next g) as [r g']. simpl.
    apply Nat.mod_upper_bound. lia.
  - intros n g Hn. unfold tape_pair.
    destruct (tape_next g) as [r1 g1]. destruct (tape_next g1) as [r2 g2]. simpl.
    apply Nat.mod_upper_bound. lia.
  - intros n g Hn. unfold tape_pair.
    destruct (tape_next g) as [r1 g1]. destruct (tape_next g1) as [r2 g2]. simpl.
    pose proof (Nat.mod_upper_bound r2 (n - 1) ltac:(lia)).
    destruct (Nat.ltb_spec (r2 mod (n - 1)) (r1 mod n)); lia.
  - intros n g Hn. unfold tape_pair.
    destruct (tape_next g) as [r1 g1]. destruct (tape_next g1) as [r2 g2]. simpl.
    destruct (Nat.ltb_spec (r2 mod (n - 1)) (r1 mod n)); lia.
Defined.

(** ** What the cells compute, as functions of the normalised matrix *)

Definition liked_of (n : Numpy.matrix Float.float64) (t : Float.float64)
  : Numpy.matrix Z :=
  Numpy.astype_int (Numpy.gt_scalar n t).

Definition disliked_of (n : Numpy.matrix Float.float64) (t : Float.float64)
  : Numpy.matrix Z :=
  Numpy.astype_int (Numpy.lt_scalar n (Float.neg t)).

Definition multiprefs_of (m : Numpy.matrix Z) : list bool :=
  Numpy.vec_gt (Numpy.sum_axis1 m) 1.

Definition both_of (n : Numpy.matrix Float.float64) (t : Float.float64)
  : Numpy.matrix Z :=
  Numpy.add (liked_of n t) (Numpy.assign_where_pos (disliked_of n t) (-1)).

Definition similar_of (n : Numpy.matrix Float.float64) (t : Float.float64)
  : list (nat * nat) :=
  foldl (extend_similar (-1))
    (foldl (extend_similar 1) []
       (Numpy.mask_rows (both_of n t) (multiprefs_of (liked_of n t))))
    (Numpy.mask_rows (both_of n t) (multiprefs_of (disliked_of n t))).

(** The store after the thresholding cell, and after the in-place update
    and the two allocations of the pair-construction cell. *)
Definition heap_thresholded (h : list ndarray) (n : Numpy.matrix Float.float64)
    (t : Float.float64) : list ndarray :=
  h ++ [IntMatrix (liked_of n t); IntMatrix (disliked_of n t);
        BoolVector (multiprefs_of (liked_of n t));
        BoolVector (multiprefs_of (disliked_of n t))].

Definition heap_paired (h : list ndarray) (n : Numpy.matrix Float.float64)
    (t : Float.float64) : list ndarray :=
  h ++ [IntMatrix (liked_of n t);
        IntMatrix (Numpy.assign_where_pos (disliked_of n t) (-1));
        BoolVector (multiprefs_of (liked_of n t));
        BoolVector (multiprefs_of (disliked_of n t));
        IntMatrix (both_of n t);
        BoolVector (Numpy.bool_add (multiprefs_of (liked_of n t))
                                   (multiprefs_of (disliked_of n t)))].

Definition names_thresholded (h : list ndarray) (normed : loc)
    (t : Float.float64) : thresholded :=
  {| normed := normed; threshold := t;
     liked := length h; disliked := (length h + 1)%nat;
     multiprefs_liked := (length h + 2)%nat;
     multiprefs_disliked := (length h + 3)%nat |}.

(** The cell of a matrix at a row and a column, when there is one. *)
Definition cell {A : Type} (m : Numpy.matrix A) (p i : nat) : option A :=
  row ← m !! p; row !! i.

(** The number of cells of a row above, and below, a bound. *)
Definition count_above (row : list Float.float64) (t : Float.float64) : nat :=
  length (List.filter (fun x => Float.gt x t) row).

Definition count_below (row : list Float.float64) (t : Float.float64) : nat :=
  length (List.filter (fun x => Float.lt x t) row).

(** How often a pair occurs in a list of pairs. *)
Definition occurrences (p : nat * nat) (l : list (nat * nat)) : nat :=
  length (List.filter (fun x => (fst x =? fst p)%nat && (snd x =? snd p)%nat) l).

(** The polarity [both] holds for a normalised score [x]: the like flag
    plus the dislike flag as the in-place update leaves it. *)
Definition polarity (t x : Float.float64) : Z :=
  Int64.add (if Float.gt x t then 1 else 0)
            (if 0 <? (if Float.lt x (Float.neg t) then 1 else 0) then -1
             else (if Float.lt x (Float.neg t) then 1 else 0)).

(** Person [row] likes, or dislikes, the podcast at column [i]. *)
Definition likes (row : list Float.float64) (t : Float.float64) (i : nat) : Prop :=
  exists x, row !! i = Some x /\ Float.gt x t = true.

Definition dislikes (row : list Float.float64) (t : Float.float64) (i : nat) : Prop :=
  exists x, row !! i = Some x /\ Float.lt x (Float.neg t) = true.

(** A computation that leaves every array object as it was, whatever its
    outcome. *)
Definition reads_only {G : Type} {A : Type} (m : M G A) : Prop :=
  forall w : world G, heap (snd (m w)) = heap w.

(** The calls of [get_dissimilar_pair(both)] made one after the other from
    a world, each returning, and the pairs they return. *)
Inductive calls {G : Type} `{RandomSource G} (fuel num_pods : nat) (b : loc)
  : world G -> list (nat * nat) -> world G -> Prop :=
| calls_none (w : world G) : calls fuel num_pods b w [] w
| calls_more (w w1 w2 : world G) (p : nat * nat) (ps : list (nat * nat)) :
    get_dissimilar_pair fuel num_pods b w = (Return p, w1) ->
    calls fuel num_pods b w1 ps w2 ->
    calls fuel num_pods b w (p :: ps) w2.

(** A row the acceptance test can never pass: no cell is zero (and none is
    the one int64 that equals its own negation). *)
Definition one_sided (person : list Z) : Prop :=
  Forall (fun x => x <> 0 /\ Int64.min_int < x <= Int64.max_int) person.

(** ** A small run: three people, three podcasts *)

(** Person 0 likes podcasts 0 and 1; person 1 likes podcast 2 only and is
    flagged by neither mask; person 2 dislikes podcasts 0 and 2.  The rows
    have norm 1. *)
Definition demo_normed : Numpy.matrix Float.float64 :=
  [[Float.Fin (6 # 10); Float.Fin (8 # 10); Float.Fin 0];
   [Float.Fin 0; Float.Fin 0; Float.Fin 1];
   [Float.Fin (- 6 # 10); Float.Fin 0; Float.Fin (- 8 # 10)]].

(** The notebook's threshold, 0.17. *)
Definition demo_threshold : Float.float64 := Float.Fin (17 # 100).

(** [normed] is the only object in the store; nothing is printed yet. *)
Definition demo_world (tape : list nat) : world (list nat) :=
  {| heap := [FloatMatrix demo_normed]; rng := tape; stdout := [] |}.

(** The names and the store the two cells leave from [demo_world]. *)
Definition demo_names : thresholded :=
  names_thresholded [FloatMatrix demo_normed] 0%nat demo_threshold.

Definition demo_thresholded (tape : list nat) (out : list string)
  : world (list nat) :=
  {| heap := heap_thresholded [FloatMatrix demo_normed] demo_normed demo_threshold;
     rng := tape; stdout := out |}.

Definition demo_paired (tape : list nat) (out : list string)
  : world (list nat) :=
  {| heap := heap_paired [FloatMatrix demo_normed] demo_normed demo_threshold;
     rng := tape; stdout := out |}.

(** Draws for four requests: person 0, pair (2, 0); person 1, pair (0, 2);
    person 2, pair (0, 1) then (1, 0); person 0, pair (2, 1). *)
Definition demo_tape : list nat :=
  [0; 2; 0; 1; 0; 1; 2; 0; 0; 1; 0; 0; 2; 1]%nat.

(** The names the pair-construction cell ends with on [demo_tape]. *)
Definition demo_pairs : paired :=
  {| earlier := demo_names; both := 5%nat; contains_similar := 6%nat;
     potential_similar_pairs := [(0, 1); (1, 0); (0, 2); (2, 0)]%nat;
     unique_similar_pairs := list_to_set [(0, 1); (1, 0); (0, 2); (2, 0)]%nat;
     potential_dissimilar_pairs := [(2, 0); (0, 2); (1, 0); (2, 1)]%nat |}.

(** A single person with a single like: no one is flagged. *)
Definition lonely_normed : Numpy.matrix Float.float64 :=
  [[Float.Fin 1; Float.Fin 0]].

(** ** [random.shuffle] and the train/test cell *)

(** [random.shuffle(x)] reorders the list [x] where it is: the list the
    name is bound to afterwards is a permutation of the one before, chosen
    by the generator.  The law is the library's contract. *)
Class ShuffleSource (G : Type) : Type := {
  shuffle_list : forall A : Type, list A -> G -> list A * G;
  shuffle_list_perm : forall (A : Type) (x : list A) (g : G),
    Permutation (fst (shuffle_list A x g)) x
}.

(** The names after the train/test cell; [shuffled_pairs] holds the
    earlier names, the two pair lists shuffled. *)
Record split_names : Type := SplitNames {
  shuffled_pairs : paired;
  similar : list (nat * nat);
  dissimilar : list (nat * nat);
  similar_labels : list Z;
  dissimilar_labels : list Z;
  Xs : list (nat * nat);
  labels : list Z;
  train_size : nat;
  shuffled : list ((nat * nat) * Z);
  train : list ((nat * nat) * Z);
  test : list ((nat * nat) * Z);
  train_Xs : list (nat * nat);
  train_ys : list Z;
  test_Xs : list (nat * nat);
  test_ys : list Z
}.

(** The double nearest to a non-negative integer, ties to the even
    mantissa of 53 bits: what [float(a)] is, and what an exact value that
    is a multiple of an integer by a power of two rounds to (far below the
    overflow threshold).  Integers below 2^53 are doubles. *)
Definition round_to_double (a : Z) : Z :=
  if a <? 2 ^ 53 then a
  else
    let s := Z.log2 a - 52 in
    let m := Z.shiftr a s in
    let r := a - Z.shiftl m s in
    let half := 2 ^ (s - 1) in
    let m' := if (half <? r) || ((r =? half) && Z.odd m) then m + 1 else m in
    Z.shiftl m' s.

(** [int(k * 0.75)] for a list length [k]: [k] becomes a double, the
    product with 0.75 (three quarters, a double) is rounded to a double,
    and [int] drops the fraction. *)
Definition int_three_quarters (k : nat) : nat :=
  Z.to_nat (round_to_double (3 * round_to_double (Z.of_nat k)) / 4).

(** The tab of ["Training set:\t{}"]. *)
Definition tab : string := String (Ascii.ascii_of_nat 9) EmptyString.

Section Split.

Context {G : Type} `{ShuffleSource G}.

Definition random_shuffle {A : Type} (x : list A) : M G (list A) := fun w =>
  let '(x', g) := shuffle_list A x (rng w) in
  (Return x', {| heap := heap w; rng := g; stdout := stdout w |}).

(** The cell from [random.shuffle(potential_dissimilar_pairs)] to the two
    prints.  [Xs] is the array of the pairs, one row per pair;
    [train_size] is [int(len(Xs) * 0.75)], computed in double precision. *)
Definition split_cell (ps : paired) : M G split_names :=
  potential_dissimilar_pairs' ← random_shuffle (potential_dissimilar_pairs ps);
  potential_similar_pairs' ← random_shuffle (potential_similar_pairs ps);
  let similar := potential_similar_pairs' in
  let dissimilar := potential_dissimilar_pairs' in
  let similar_labels := (fun _ => 1) <$> similar in
  let dissimilar_labels := (fun _ => 0) <$> dissimilar in
  let Xs := similar ++ dissimilar in
  let labels := similar_labels ++ dissimilar_labels in
  let train_size := int_three_quarters (length Xs) in
  shuffled ← random_shuffle (zip Xs labels);
  let train := take train_size shuffled in
  let test := drop train_size shuffled in
  let train_Xs := fst <$> train in
  let train_ys := snd <$> train in
  let test_Xs := fst <$> test in
  let test_ys := snd <$> test in
  _ ← print ("Training set:" +:+ tab +:+ pretty (length train));
  _ ← print ("Testing set:" +:+ tab +:+ pretty (length test));
  mret {| shuffled_pairs :=
            {| earlier := earlier ps; both := both ps;
               contains_similar := contains_similar ps;
               potential_similar_pairs := potential_similar_pairs';
               unique_similar_pairs := unique_similar_pairs ps;
               potential_dissimilar_pairs := potential_dissimilar_pairs' |};
          similar := similar; dissimilar := dissimilar;
          similar_labels := similar_labels;
          dissimilar_labels := dissimilar_labels;
          Xs := Xs; labels := labels; train_size := train_size;
          shuffled := shuffled; train := train; test := test;
          train_Xs := train_Xs; train_ys := train_ys;
          test_Xs := test_Xs; test_ys := test_ys |}.

End Split.

(** A shuffle for the tape: the list is rotated by the next raw draw. *)
Definition tape_shuffle (A : Type) (x : list A) (g : list nat)
  : list A * list nat :=
  let '(r, g') := tape_next g in
  (drop (r mod length x) x ++ take (r mod length x) x, g').

#[global, refine] Instance tape_shuffle_source : ShuffleSource (list nat) := {|
  shuffle_list := tape_shuffle
|}.
Proof.
  intros A x g. unfold tape_shuffle. destruct (tape_next g) as [r g']. simpl.
  rewrite Permutation_app_comm, take_drop. reflexivity.
Defined.

(** The generator state after [k] calls of [random.sample(range(n), 2)],
    and the pair the next call returns. *)
Fixpoint after_samples {G : Type} `{RandomSource G} (n k : nat) (g : G) : G :=
  match k with
  | O => g
  | S k' => after_samples n k' (snd (draw_pair n g))
  end.

Definition candidate {G : Type} `{RandomSource G} (n k : nat) (g : G)
  : nat * nat :=
  fst (draw_pair n (after_samples n k g)).

(** The number of examples of a label in a list of labelled pairs. *)
Definition count_label (l : Z) (examples : list ((nat * nat) * Z)) : nat :=
  length (List.filter (fun e => snd e =? l) examples).

(** ** The monad: how a computation runs *)

Section Runs.

Context {G : Type} `{RandomSource G}.

Lemma bind_return {A B : Type} (m : M G A) (f : A -> M G B) (w w' : world G) (a : A) :
  m w = (Return a, w') -> (x ← m; f x) w = f a w'.
Proof. intros E. unfold mbind, M_bind. rewrite E. reflexivity. Qed.

Lemma bind_raise {A B : Type} (m : M G A) (f : A -> M G B) (w w' : world G) (e : exn) :
  m w = (Raise e, w') -> (x ← m; f x) w = (Raise e, w').
Proof. intros E. unfold mbind, M_bind. rewrite E. reflexivity. Qed.

Lemma bind_out_of_fuel {A B : Type} (m : M G A) (f : A -> M G B) (w w' : world G) :
  m w = (OutOfFuel, w') -> (x ← m; f x) w = (OutOfFuel, w').
Proof. intros E. unfold mbind, M_bind. rewrite E. reflexivity. Qed.

Lemma load_float_run (l : loc) (w : world G) m :
  heap w !! l = Some (FloatMatrix m) -> load_float l w = (Return m, w).
Proof. intros E. unfold load_float, load, mbind, M_bind. rewrite E. reflexivity. Qed.

Lemma load_int_run (l : loc) (w : world G) m :
  heap w !! l = Some (IntMatrix m) -> load_int l w = (Return m, w).
Proof. intros E. unfold load_int, load, mbind, M_bind. rewrite E. reflexivity. Qed.

Lemma load_bool_run (l : loc) (w : world G) v :
  heap w !! l = Some (BoolVector v) -> load_bool l w = (Return v, w).
Proof. intros E. unfold load_bool, load, mbind, M_bind. rewrite E. reflexivity. Qed.

Lemma lookup_app_plus {A : Type} (h l : list A) (k : nat) :
  (h ++ l) !! (length h + k)%nat = l !! k.
Proof.
  rewrite lookup_app_r by lia. f_equal. lia.
Qed.

Lemma lookup_app_length {A : Type} (h l : list A) :
  (h ++ l) !! length h = l !! 0%nat.
Proof. rewrite <- (lookup_app_plus h l 0). f_equal. lia. Qed.

Lemma lookup_app_old {A : Type} (h l : list A) (k : nat) (x : A) :
  h !! k = Some x -> (h ++ l) !! k = Some x.
Proof. apply lookup_app_l_Some. Qed.

Lemma alloc_app (a : ndarray) (h l : list ndarray) (g : G) (out : list string) :
  alloc a {| heap := h ++ l; rng := g; stdout := out |}
  = (Return (length h + length l)%nat,
     {| heap := h ++ (l ++ [a]); rng := g; stdout := out |}).
Proof.
  unfold alloc. cbn [heap rng stdout]. rewrite length_app, <- app_assoc.
  reflexivity.
Qed.

Lemma store_app (a : ndarray) (h l : list ndarray) (k : nat) (g : G)
    (out : list string) :
  store (length h + k)%nat a {| heap := h ++ l; rng := g; stdout := out |}
  = (Return tt, {| heap := h ++ <[k := a]> l; rng := g; stdout := out |}).
Proof.
  unfold store. cbn [heap rng stdout]. rewrite insert_app_r. reflexivity.
Qed.

Ltac heap_lookup :=
  cbn [heap];
  first [ rewrite lookup_app_plus; reflexivity
        | rewrite lookup_app_length; reflexivity
        | apply lookup_app_old; eassumption
        | eassumption ].

Ltac run_load :=
  first [ erewrite bind_return by (apply load_int_run; heap_lookup)
        | erewrite bind_return by (apply load_bool_run; heap_lookup)
        | erewrite bind_return by (apply load_float_run; heap_lookup) ].

Ltac run_alloc :=
  erewrite bind_return by apply alloc_app; cbn [length app Nat.add].

Ltac run_store :=
  erewrite bind_return by apply store_app.

(** The thresholding cell returns, whatever the store held besides
    [normed]; the four arrays are new objects behind the old ones. *)
Lemma threshold_cell_run (nl : loc) (t : Float.float64) (w : world G) n :
  heap w !! nl = Some (FloatMatrix n) ->
  threshold_cell nl t w
  = (Return (names_thresholded (heap w) nl t),
     {| heap := heap_thresholded (heap w) n t;
        rng := rng w;
        stdout := stdout w ++
          ["Number of people with 2 or more liked podcasts: "
             +:+ pretty (count_true (multiprefs_of (liked_of n t)));
           "Number of people with 2 or more disliked podcasts: "
             +:+ pretty (count_true (multiprefs_of (disliked_of n t)))] |}).
Proof.
  intros Hn. destruct w as [h g out]. cbn [heap rng stdout] in *.
  unfold threshold_cell.
  run_load.
  erewrite bind_return by reflexivity. cbn [heap rng stdout].
  run_load. run_alloc. run_load. run_alloc. run_load. run_alloc.
  run_load.
  erewrite bind_return by reflexivity. cbn [heap rng stdout].
  run_load.
  erewrite bind_return by reflexivity. cbn [heap rng stdout].
  unfold names_thresholded, heap_thresholded, liked_of, disliked_of, multiprefs_of.
  rewrite <- app_assoc. reflexivity.
Qed.

(** The first part of the pair-construction cell returns after the
    thresholding cell: [disliked] is overwritten where it is, [both] and
    [contains_similar] are new objects. *)
Lemma similar_part_run (nl : loc) (t : Float.float64) (h : list ndarray) n
    (g : G) (out : list string) :
  similar_part (names_thresholded h nl t)
    {| heap := heap_thresholded h n t; rng := g; stdout := out |}
  = (Return {| earlier := names_thresholded h nl t;
               both := (length h + 4)%nat;
               contains_similar := (length h + 5)%nat;
               potential_similar_pairs := similar_of n t;
               unique_similar_pairs := list_to_set (similar_of n t);
               potential_dissimilar_pairs := [] |},
     {| heap := heap_paired h n t; rng := g; stdout := out |}).
Proof.
  unfold similar_part, names_thresholded, heap_thresholded.
  cbn [liked disliked multiprefs_liked multiprefs_disliked].
  run_load. run_store. cbn [list_insert insert].
  run_load. run_load. run_alloc. run_load. run_load. run_alloc.
  run_load. run_load. run_load. run_load.
  reflexivity.
Qed.

(** *** The sampler reads the store and never writes it *)

Lemma reads_only_bind {A B : Type} (m : M G A) (f : A -> M G B) :
  reads_only m -> (forall a, reads_only (G:=G) (f a)) -> reads_only (G:=G) (x ← m; f x).
Proof.
  intros Hm Hf w. unfold mbind, M_bind. specialize (Hm w).
  destruct (m w) as [[a | e |] w']; cbn [snd] in *; try exact Hm.
  rewrite Hf. exact Hm.
Qed.

Lemma reads_only_ret {A : Type} (a : A) : reads_only (G:=G) (mret a : M G A).
Proof. intros w. reflexivity. Qed.

Lemma reads_only_raise {A : Type} (e : exn) : reads_only (G:=G) (raise e : M G A).
Proof. intros w. reflexivity. Qed.

Lemma reads_only_print (s : string) : reads_only (G:=G) (print s : M G unit).
Proof. intros w. reflexivity. Qed.

Lemma reads_only_load (l : loc) : reads_only (G:=G) (load l : M G ndarray).
Proof. intros w. unfold load. destruct (heap w !! l); reflexivity. Qed.

Lemma reads_only_load_int (l : loc) : reads_only (G:=G) (load_int l).
Proof.
  apply reads_only_bind; [apply reads_only_load |].
  intros [m | m | v]; first [apply reads_only_ret | apply reads_only_raise].
Qed.

Lemma reads_only_random_sample2 (n : nat) : reads_only (G:=G) (random_sample2 n).
Proof.
  intros w. unfold random_sample2. destruct (n <? 2)%nat; [reflexivity |].
  destruct (draw_pair n (rng w)). reflexivity.
Qed.

Lemma reads_only_random_choices1 {A : Type} (population : list A) :
  reads_only (G:=G) (random_choices1 population).
Proof.
  intros w. unfold random_choices1.
  destruct (draw_index (length population) (rng w)) as [k g].
  destruct (population !! k); reflexivity.
Qed.

Lemma reads_only_getitem (row : list Z) (i : nat) : reads_only (G:=G) (getitem row i).
Proof.
  unfold getitem. destruct (row !! i);
    [apply reads_only_ret | apply reads_only_raise].
Qed.

Lemma reads_only_polarity_test person i j : reads_only (G:=G) (polarity_test person i j).
Proof.
  unfold polarity_test.
  repeat (apply reads_only_bind; [apply reads_only_getitem | intros ?]).
  apply reads_only_ret.
Qed.

Lemma reads_only_loop_body num_pods person v :
  reads_only (G:=G) (loop_body num_pods person v).
Proof.
  unfold loop_body.
  apply reads_only_bind; [apply reads_only_random_sample2 | intros [i j]].
  apply reads_only_bind; [apply reads_only_polarity_test | intros accepted].
  destruct accepted; [apply reads_only_ret |].
  destruct (1000 <? attempts v); [| apply reads_only_ret].
  apply reads_only_bind; [apply reads_only_print | intros ?; apply reads_only_ret].
Qed.

Lemma reads_only_while_resample fuel num_pods person v :
  reads_only (G:=G) (while_resample fuel num_pods person v).
Proof.
  revert v. induction fuel as [| fuel IH]; intros v; simpl;
    destruct (resample v); try apply reads_only_ret.
  - intros w. reflexivity.
  - apply reads_only_bind; [apply reads_only_loop_body | intros v'; apply IH].
Qed.

Lemma reads_only_choose_person b : reads_only (G:=G) (choose_person b).
Proof.
  unfold choose_person.
  apply reads_only_bind; [apply reads_only_load_int | intros ?].
  apply reads_only_random_choices1.
Qed.

Lemma reads_only_get_dissimilar_pair fuel num_pods b :
  reads_only (G:=G) (get_dissimilar_pair fuel num_pods b).
Proof.
  unfold get_dissimilar_pair.
  apply reads_only_bind; [apply reads_only_choose_person | intros person].
  apply reads_only_bind; [apply reads_only_while_resample | intros v].
  destruct (pod_ixs v); [apply reads_only_ret | apply reads_only_raise].
Qed.

Lemma reads_only_sample_dissimilar fuel num_pods b n pairs :
  reads_only (G:=G) (sample_dissimilar fuel num_pods b n pairs).
Proof.
  revert pairs. induction n as [| n IH]; intros pairs; simpl.
  - apply reads_only_ret.
  - apply reads_only_bind; [apply reads_only_get_dissimilar_pair | intros p].
    apply IH.
Qed.

Lemma reads_only_dissimilar_part fuel num_pods ps :
  reads_only (G:=G) (dissimilar_part fuel num_pods ps).
Proof.
  unfold dissimilar_part.
  apply reads_only_bind; [apply reads_only_sample_dissimilar | intros ?].
  apply reads_only_ret.
Qed.

End Runs.

(** ** Arithmetic of the cells *)

Lemma Qlt_bool_true (p q : Q) : Float.Qlt_bool p q = true <-> (p < q)%Q.
Proof.
  unfold Float.Qlt_bool. rewrite negb_true_iff.
  split.
  - intros E. apply Qnot_le_lt. intros Hle.
    apply Qle_bool_iff in Hle. congruence.
  - intros Hlt. destruct (Qle_bool q p) eqn:E; [| reflexivity].
    apply Qle_bool_iff in E. exfalso. apply (Qlt_not_le _ _ Hlt E).
Qed.

(** Above a positive bound and below its negation exclude each other. *)
Lemma above_below_exclusive (x t : Float.float64) :
  Float.lt Float.zero t = true ->
  Float.gt x t = true -> Float.lt x (Float.neg t) = true -> False.
Proof.
  unfold Float.gt, Float.zero.
  destruct t as [| | | t], x as [| | | x]; simpl; try discriminate.
  rewrite !Qlt_bool_true. intros H0 H1 H2. lra.
Qed.

Lemma wrap_small (z : Z) : Int64.in_range z -> Int64.wrap z = z.
Proof.
  unfold Int64.in_range, Int64.min_int, Int64.max_int, Int64.wrap. intros Hz.
  rewrite Z.mod_small; lia.
Qed.

Lemma wrap_range (z : Z) : Int64.in_range (Int64.wrap z).
Proof.
  unfold Int64.in_range, Int64.min_int, Int64.max_int, Int64.wrap.
  pose proof (Z.mod_pos_bound (z + 2 ^ 63) (2 ^ 64) ltac:(lia)). lia.
Qed.

Lemma add_wrap_r (a b : Z) : Int64.add a (Int64.wrap b) = Int64.wrap (a + b).
Proof.
  unfold Int64.add, Int64.wrap. f_equal.
  replace (a + ((b + 2 ^ 63) mod 2 ^ 64 - 2 ^ 63) + 2 ^ 63)
    with (a + (b + 2 ^ 63) mod 2 ^ 64) by lia.
  rewrite Zplus_mod_idemp_r. f_equal. lia.
Qed.

(** Away from [min_int], [x == -x] holds at zero only. *)
Lemma eqb_neg_self (x : Z) :
  Int64.min_int < x <= Int64.max_int -> (x =? Int64.neg x) = (x =? 0).
Proof.
  unfold Int64.min_int, Int64.max_int. intros Hx. unfold Int64.neg.
  rewrite wrap_small by (unfold Int64.in_range, Int64.min_int, Int64.max_int; lia).
  destruct (Z.eqb_spec x (- x)), (Z.eqb_spec x 0); lia.
Qed.

(** ** The arrays, cell by cell *)

Lemma zip_with_fmap_same {A B C D : Type} (f : B -> C -> D) (g : A -> B)
    (h : A -> C) (l : list A) :
  zip_with f (g <$> l) (h <$> l) = (fun x => f (g x) (h x)) <$> l.
Proof. induction l as [| x l IH]; [reflexivity |]. simpl. f_equal. exact IH. Qed.

Lemma cell_fmap {A B : Type} (f : A -> B) (m : list (list A)) (p i : nat) :
  cell (fmap (M:=list) (fmap (M:=list) f) m) p i = f <$> cell m p i.
Proof.
  unfold cell. rewrite list_lookup_fmap.
  destruct (m !! p) as [row |]; simpl; [| reflexivity].
  apply list_lookup_fmap.
Qed.

Lemma liked_of_cells n t :
  liked_of n t = fmap (M:=list) (fmap (M:=list)
                   (fun x => if Float.gt x t then 1 else 0)) n.
Proof.
  unfold liked_of, Numpy.astype_int, Numpy.gt_scalar.
  rewrite <- list_fmap_compose. apply list_fmap_ext. intros _ row _.
  simpl. rewrite <- list_fmap_compose. reflexivity.
Qed.

Lemma disliked_of_cells n t :
  disliked_of n t = fmap (M:=list) (fmap (M:=list)
                      (fun x => if Float.lt x (Float.neg t) then 1 else 0)) n.
Proof.
  unfold disliked_of, Numpy.astype_int, Numpy.lt_scalar.
  rewrite <- list_fmap_compose. apply list_fmap_ext. intros _ row _.
  simpl. rewrite <- list_fmap_compose. reflexivity.
Qed.

Lemma negated_cells n t :
  Numpy.assign_where_pos (disliked_of n t) (-1)
  = fmap (M:=list) (fmap (M:=list)
      (fun x => if 0 <? (if Float.lt x (Float.neg t) then 1 else 0) then -1
                else (if Float.lt x (Float.neg t) then 1 else 0))) n.
Proof.
  rewrite disliked_of_cells. unfold Numpy.assign_where_pos.
  rewrite <- list_fmap_compose. apply list_fmap_ext. intros _ row _.
  simpl. rewrite <- list_fmap_compose. reflexivity.
Qed.

Lemma both_of_cells n t :
  both_of n t = fmap (M:=list) (fmap (M:=list) (polarity t)) n.
Proof.
  unfold both_of. rewrite negated_cells, liked_of_cells. unfold Numpy.add.
  rewrite zip_with_fmap_same. apply list_fmap_ext. intros _ row _.
  cbv beta. rewrite zip_with_fmap_same. reflexivity.
Qed.

Lemma polarity_value (t x : Float.float64) :
  polarity t x
  = (if Float.gt x t then 1 else 0) + (if Float.lt x (Float.neg t) then -1 else 0).
Proof.
  unfold polarity.
  destruct (Float.gt x t), (Float.lt x (Float.neg t)); reflexivity.
Qed.

Lemma polarity_range (t x : Float.float64) :
  polarity t x = -1 \/ polarity t x = 0 \/ polarity t x = 1.
Proof.
  rewrite polarity_value.
  destruct (Float.gt x t), (Float.lt x (Float.neg t)); simpl; lia.
Qed.

Lemma polarity_liked (t x : Float.float64) :
  polarity t x = 1 -> Float.gt x t = true.
Proof.
  rewrite polarity_value.
  destruct (Float.gt x t), (Float.lt x (Float.neg t)); simpl; intros; congruence || lia.
Qed.

Lemma polarity_disliked (t x : Float.float64) :
  polarity t x = -1 -> Float.lt x (Float.neg t) = true.
Proof.
  rewrite polarity_value.
  destruct (Float.gt x t), (Float.lt x (Float.neg t)); simpl; intros; congruence || lia.
Qed.

(** ** Row sums and the qualifying masks *)

Lemma sum_row_flags {A : Type} (f : A -> bool) (row : list A) :
  Numpy.sum_row ((fun x => if f x then 1 else 0) <$> row)
  = Int64.wrap (Z.of_nat (length (List.filter f row))).
Proof.
  induction row as [| x row IH]; [reflexivity |].
  unfold Numpy.sum_row in *. cbn [fmap list_fmap foldr List.filter].
  change (foldr Int64.add 0 (list_fmap A Z (fun x => if f x then 1 else 0) row))
    with (foldr Int64.add 0 ((fun x => if f x then 1 else 0) <$> row)).
  rewrite IH, add_wrap_r. f_equal.
  destruct (f x); cbn [length]; lia.
Qed.

Lemma flag_at_least_two (c : nat) :
  (1 <? Int64.wrap (Z.of_nat c)) = true -> (2 <= c)%nat.
Proof.
  intros E. apply Z.ltb_lt in E.
  destruct (Nat.le_gt_cases 2 c) as [Hc | Hc]; [exact Hc |].
  rewrite wrap_small in E
    by (unfold Int64.in_range, Int64.min_int, Int64.max_int; lia).
  lia.
Qed.

Lemma at_least_two_flag (c : nat) :
  Z.of_nat c < 2 ^ 63 -> (2 <= c)%nat -> (1 <? Int64.wrap (Z.of_nat c)) = true.
Proof.
  intros Hb Hc. apply Z.ltb_lt.
  rewrite wrap_small
    by (unfold Int64.in_range, Int64.min_int, Int64.max_int; lia).
  lia.
Qed.

Lemma filter_length_bound {A : Type} (f : A -> bool) (l : list A) :
  (length (List.filter f l) <= length l)%nat.
Proof.
  induction l as [| x l IH]; simpl; [lia |]. destruct (f x); simpl; lia.
Qed.

Lemma multiprefs_liked_lookup n t (p : nat) :
  multiprefs_of (liked_of n t) !! p
  = (fun row => 1 <? Int64.wrap (Z.of_nat (count_above row t))) <$> n !! p.
Proof.
  unfold multiprefs_of, Numpy.vec_gt, Numpy.sum_axis1.
  rewrite liked_of_cells, !list_lookup_fmap.
  destruct (n !! p) as [row |]; [| reflexivity].
  cbn [fmap option_fmap option_map]. rewrite sum_row_flags. reflexivity.
Qed.

Lemma multiprefs_disliked_lookup n t (p : nat) :
  multiprefs_of (disliked_of n t) !! p
  = (fun row => 1 <? Int64.wrap (Z.of_nat (count_below row (Float.neg t))))
      <$> n !! p.
Proof.
  unfold multiprefs_of, Numpy.vec_gt, Numpy.sum_axis1.
  rewrite disliked_of_cells, !list_lookup_fmap.
  destruct (n !! p) as [row |]; [| reflexivity].
  cbn [fmap option_fmap option_map]. rewrite sum_row_flags. reflexivity.
Qed.

Lemma in_mask_rows {A : Type} (m : list A) (mask : list bool) (r : A) :
  In r (Numpy.mask_rows m mask)
  <-> exists p : nat, m !! p = Some r /\ mask !! p = Some true.
Proof.
  revert mask. induction m as [| x m IH]; intros mask.
  - simpl. split; [intros [] | intros (p & Hp & _); destruct p; discriminate].
  - destruct mask as [| b mask].
    + simpl. split; [intros [] | intros (p & _ & Hp); destruct p; discriminate].
    + simpl. destruct b.
      * simpl. rewrite IH. split.
        -- intros [-> | (p & Hp)]; [exists 0%nat; split; reflexivity |].
           exists (S p). exact Hp.
        -- intros ([| p] & Hm & Hk); simpl in *.
           ++ left. congruence.
           ++ right. exists p. split; assumption.
      * rewrite IH. split.
        -- intros (p & Hp). exists (S p). exact Hp.
        -- intros ([| p] & Hm & Hk); simpl in *; [discriminate |].
           exists p. split; assumption.
Qed.

(** ** Index sets and their ordered pairs *)

Example permutations2_abc :
  Itertools.permutations2 [5; 7; 9]%nat
  = [(5, 7); (5, 9); (7, 5); (7, 9); (9, 5); (9, 7)]%nat.
Proof. reflexivity. Qed.

Lemma in_where_from (k : nat) (v : Z) (row : list Z) (i : nat) :
  In i (Numpy.where_from k v row)
  <-> exists j : nat, i = (k + j)%nat /\ row !! j = Some v.
Proof.
  revert k. induction row as [| x row IH]; intros k; simpl.
  - split; [intros [] | intros (j & _ & Hj); destruct j; discriminate].
  - destruct (Z.eqb_spec x v) as [-> | Hne]; simpl; rewrite IH; split.
    + intros [<- | (j & -> & Hj)].
      * exists 0%nat. split; [lia | reflexivity].
      * exists (S j). split; [lia | exact Hj].
    + intros ([| j] & -> & Hj); [left; lia |].
      right. exists j. split; [lia | exact Hj].
    + intros (j & -> & Hj). exists (S j). split; [lia | exact Hj].
    + intros ([| j] & -> & Hj); simpl in Hj; [congruence |].
      exists j. split; [lia | exact Hj].
Qed.

Lemma in_where_eq (v : Z) (row : list Z) (i : nat) :
  In i (Numpy.where_eq v row) <-> row !! i = Some v.
Proof.
  unfold Numpy.where_eq. rewrite in_where_from. split.
  - intros (j & -> & Hj). exact Hj.
  - intros Hi. exists i. split; [reflexivity | exact Hi].
Qed.

Lemma where_from_NoDup (k : nat) (v : Z) (row : list Z) :
  NoDup (Numpy.where_from k v row).
Proof.
  revert k. induction row as [| x row IH]; intros k; simpl.
  - constructor.
  - destruct (x =? v); [| apply IH].
    constructor; [| apply IH].
    rewrite list_elem_of_In, in_where_from. intros (j & Hj & _). lia.
Qed.

Lemma in_permutations2 {A : Type} (pool : list A) (a b : A) :
  In (a, b) (Itertools.permutations2 pool)
  <-> exists i j : nat, i <> j /\ pool !! i = Some a /\ pool !! j = Some b.
Proof.
  unfold Itertools.permutations2. rewrite in_flat_map. split.
  - intros (i & _ & Hi). apply in_flat_map in Hi as (j & _ & Hj).
    destruct (Nat.eqb_spec i j) as [| Hne]; [destruct Hj |].
    destruct (pool !! i) as [x |] eqn:Ei; [| destruct Hj].
    destruct (pool !! j) as [y |] eqn:Ej; [| destruct Hj].
    destruct Hj as [Hj | []]. inversion Hj; subst.
    exists i, j. auto.
  - intros (i & j & Hne & Hi & Hj). exists i. split.
    + apply in_seq. apply lookup_lt_Some in Hi. lia.
    + apply in_flat_map. exists j. split.
      * apply in_seq. apply lookup_lt_Some in Hj. lia.
      * destruct (Nat.eqb_spec i j) as [| _]; [contradiction |].
        rewrite Hi, Hj. left. reflexivity.
Qed.

(** *** A pair and its reverse occur equally often *)

Lemma sum_list_with_ext {A : Type} (f g : A -> nat) (l : list A) :
  (forall x, f x = g x) -> sum_list_with f l = sum_list_with g l.
Proof. intros E. induction l as [| x l IH]; simpl; [reflexivity |]. rewrite E, IH. reflexivity. Qed.




Lemma occurrences_app p l1 l2 :
  occurrences p (l1 ++ l2) = (occurrences p l1 + occurrences p l2)%nat.
Proof. unfold occurrences. rewrite List.filter_app, length_app. reflexivity. Qed.

Lemma occurrences_flat_map {A : Type} p (f : A -> list (nat * nat)) (l : list A) :
  occurrences p (flat_map f l) = sum_list_with (fun x => occurrences p (f x)) l.
Proof.
  induction l as [| x l IH]; simpl; [reflexivity |].
  rewrite occurrences_app, IH. reflexivity.
Qed.


Lemma foldl_extend_similar (v : Z) (pairs : list (nat * nat)) (rows : list (list Z)) :
  foldl (extend_similar v) pairs rows
  = pairs ++ flat_map (fun person =>
               Itertools.permutations2 (Numpy.where_eq v person)) rows.
Proof.
  revert pairs. induction rows as [| r rows IH]; intros pairs; simpl.
  - rewrite app_nil_r. reflexivity.
  - rewrite IH. unfold extend_similar. rewrite <- app_assoc. reflexivity.
Qed.

Lemma similar_of_flat n t :
  similar_of n t
  = flat_map (fun person => Itertools.permutations2 (Numpy.where_eq 1 person))
      (Numpy.mask_rows (both_of n t) (multiprefs_of (liked_of n t)))
    ++ flat_map (fun person => Itertools.permutations2 (Numpy.where_eq (-1) person))
      (Numpy.mask_rows (both_of n t) (multiprefs_of (disliked_of n t))).
Proof.
  unfold similar_of. rewrite !foldl_extend_similar. reflexivity.
Qed.

(** ** The cells of the notebook *)

Section Cells.

Context {G : Type} `{RandomSource G}.

Lemma pair_cell_run (fuel num_pods : nat) (nl : loc) (t : Float.float64)
    (h : list ndarray) n (g : G) (out : list string) :
  pair_cell fuel num_pods (names_thresholded h nl t)
    {| heap := heap_thresholded h n t; rng := g; stdout := out |}
  = dissimilar_part fuel num_pods
      {| earlier := names_thresholded h nl t;
         both := (length h + 4)%nat;
         contains_similar := (length h + 5)%nat;
         potential_similar_pairs := similar_of n t;
         unique_similar_pairs := list_to_set (similar_of n t);
         potential_dissimilar_pairs := [] |}
      {| heap := heap_paired h n t; rng := g; stdout := out |}.
Proof.
  unfold pair_cell. erewrite bind_return by apply similar_part_run.
  reflexivity.
Qed.

(** Whatever becomes of the sampling loop, the store after the
    pair-construction cell is the one its first part left. *)
Lemma pair_cell_heap (fuel num_pods : nat) (nl : loc) (t : Float.float64)
    (h : list ndarray) n (g : G) (out : list string) :
  heap (snd (pair_cell fuel num_pods (names_thresholded h nl t)
               {| heap := heap_thresholded h n t; rng := g; stdout := out |}))
  = heap_paired h n t.
Proof. rewrite pair_cell_run. apply reads_only_dissimilar_part. Qed.

Lemma cell_liked_of n t p i :
  cell (liked_of n t) p i = Some 1 ->
  exists x, cell n p i = Some x /\ Float.gt x t = true.
Proof.
  rewrite liked_of_cells, cell_fmap.
  destruct (cell n p i) as [x |]; [| discriminate]. simpl.
  destruct (Float.gt x t) eqn:E; [| discriminate]. eauto.
Qed.

Lemma cell_disliked_of n t p i :
  cell (disliked_of n t) p i = Some 1 ->
  exists x, cell n p i = Some x /\ Float.lt x (Float.neg t) = true.
Proof.
  rewrite disliked_of_cells, cell_fmap.
  destruct (cell n p i) as [x |]; [| discriminate]. simpl.
  destruct (Float.lt x (Float.neg t)) eqn:E; [| discriminate]. eauto.
Qed.

Lemma cell_both_of n t p i x :
  cell (both_of n t) p i = Some x -> x = -1 \/ x = 0 \/ x = 1.
Proof.
  rewrite both_of_cells, cell_fmap.
  destruct (cell n p i) as [y |]; [| discriminate]. simpl.
  intros [= <-]. apply polarity_range.
Qed.

Lemma cell_negated n t p i x :
  cell (Numpy.assign_where_pos (disliked_of n t) (-1)) p i = Some x ->
  x = 0 \/ x = -1.
Proof.
  rewrite negated_cells, cell_fmap.
  destruct (cell n p i) as [y |]; [| discriminate]. simpl.
  intros [= <-]. destruct (Float.lt y (Float.neg t)); simpl; lia.
Qed.

(** C8. For a threshold above zero, no cell is 1 in both [liked] and
    [disliked] after the thresholding cell, and every cell of [both], as
    the pair-construction cell builds it, is -1, 0 or 1. *)
Theorem liked_disliked_exclusive (nl : loc) (t : Float.float64) (w : world G) n :
  heap w !! nl = Some (FloatMatrix n) ->
  Float.lt Float.zero t = true ->
  exists ns w1 L D,
    threshold_cell nl t w = (Return ns, w1)
    /\ heap w1 !! liked ns = Some (IntMatrix L)
    /\ heap w1 !! disliked ns = Some (IntMatrix D)
    /\ (forall p i, ~ (cell L p i = Some 1 /\ cell D p i = Some 1))
    /\ exists ps w2 B,
         similar_part ns w1 = (Return ps, w2)
         /\ heap w2 !! both ps = Some (IntMatrix B)
         /\ forall p i x, cell B p i = Some x -> x = -1 \/ x = 0 \/ x = 1.
Proof.
  intros Hn Ht. destruct w as [h g out]. cbn [heap] in Hn.
  eexists _, _, (liked_of n t), (disliked_of n t).
  split; [apply threshold_cell_run; exact Hn |]. cbn [heap rng stdout].
  unfold names_thresholded at 1 2. cbn [liked disliked].
  unfold heap_thresholded.
  split; [rewrite lookup_app_length; reflexivity |].
  split; [rewrite lookup_app_plus; reflexivity |].
  split.
  - intros p i [HL HD].
    apply cell_liked_of in HL as (x & Hx & Hgt).
    apply cell_disliked_of in HD as (y & Hy & Hlt).
    assert (x = y) by congruence. subst y.
    exact (above_below_exclusive x t Ht Hgt Hlt).
  - eexists _, _, (both_of n t).
    split; [apply similar_part_run |]. cbn [heap both].
    split; [unfold heap_paired; rewrite lookup_app_plus; reflexivity |].
    intros p i x. apply cell_both_of.
Qed.

(** C10. Of the objects the thresholding cell left in the store, the
    pair-construction cell changes [disliked] only: its cells end up 0 or
    -1, while [normed], [liked] and the two masks are what they were; and
    the mask [multiprefs_disliked], computed from the 0/1 form, flags a
    person exactly when at least two scores of the row lie below the
    negated threshold.  This holds whatever the outcome of the sampling
    loop. *)
Theorem pair_construction_frame (fuel num_pods : nat) (nl : loc)
    (t : Float.float64) (w : world G) n :
  heap w !! nl = Some (FloatMatrix n) ->
  exists ns w1,
    threshold_cell nl t w = (Return ns, w1)
    /\ forall out w2,
        pair_cell fuel num_pods ns w1 = (out, w2) ->
        (forall l : loc, (l < length (heap w1))%nat -> l <> disliked ns ->
                         heap w2 !! l = heap w1 !! l)
        /\ heap w2 !! normed ns = Some (FloatMatrix n)
        /\ heap w2 !! liked ns = heap w1 !! liked ns
        /\ heap w2 !! multiprefs_liked ns = heap w1 !! multiprefs_liked ns
        /\ heap w2 !! multiprefs_disliked ns = heap w1 !! multiprefs_disliked ns
        /\ (exists D, heap w2 !! disliked ns = Some (IntMatrix D)
                      /\ forall p i x, cell D p i = Some x -> x = 0 \/ x = -1)
        /\ exists MD, heap w2 !! multiprefs_disliked ns = Some (BoolVector MD)
             /\ forall p row, n !! p = Some row ->
                  Z.of_nat (length row) < 2 ^ 63 ->
                  (MD !! p = Some true
                   <-> (2 <= count_below row (Float.neg t))%nat).
Proof.
  intros Hn. destruct w as [h g out0]. cbn [heap] in Hn.
  eexists _, _. split; [apply threshold_cell_run; exact Hn |].
  cbn [heap rng stdout]. intros out w2 Hrun.
  assert (Hheap : heap w2 = heap_paired h n t).
  { rewrite <- (pair_cell_heap fuel num_pods nl t h n g
                  (out0 ++
          ["Number of people with 2 or more liked podcasts: "
             +:+ pretty (count_true (multiprefs_of (liked_of n t)));
           "Number of people with 2 or more disliked podcasts: "
             +:+ pretty (count_true (multiprefs_of (disliked_of n t)))])).
    rewrite Hrun. reflexivity. }
  rewrite Hheap. clear Hrun Hheap.
  unfold names_thresholded, heap_paired, heap_thresholded.
  cbn [normed liked disliked multiprefs_liked multiprefs_disliked].
  assert (Hframe : forall l : loc,
    (l < length (h ++ [IntMatrix (liked_of n t); IntMatrix (disliked_of n t);
                       BoolVector (multiprefs_of (liked_of n t));
                       BoolVector (multiprefs_of (disliked_of n t))]))%nat ->
    l <> (length h + 1)%nat ->
    (h ++ [IntMatrix (liked_of n t);
           IntMatrix (Numpy.assign_where_pos (disliked_of n t) (-1));
           BoolVector (multiprefs_of (liked_of n t));
           BoolVector (multiprefs_of (disliked_of n t));
           IntMatrix (both_of n t);
           BoolVector (Numpy.bool_add (multiprefs_of (liked_of n t))
                                      (multiprefs_of (disliked_of n t)))]) !! l
    = (h ++ [IntMatrix (liked_of n t); IntMatrix (disliked_of n t);
             BoolVector (multiprefs_of (liked_of n t));
             BoolVector (multiprefs_of (disliked_of n t))]) !! l).
  { intros l Hl Hne. rewrite length_app in Hl. cbn [length] in Hl.
    destruct (Nat.lt_ge_cases l (length h)) as [Hlt | Hge].
    - rewrite !lookup_app_l by exact Hlt. reflexivity.
    - replace l with (length h + (l - length h))%nat by lia.
      rewrite !lookup_app_plus.
      destruct (l - length h)%nat as [| [| [| [| k]]]] eqn:E;
        try reflexivity; lia. }
  split; [exact Hframe |].
  split; [apply lookup_app_old; exact Hn |].
  split; [rewrite !lookup_app_length; reflexivity |].
  split; [rewrite !lookup_app_plus; reflexivity |].
  split; [rewrite !lookup_app_plus; reflexivity |].
  split.
  - eexists. split; [rewrite lookup_app_plus; reflexivity |].
    intros p i x. apply cell_negated.
  - eexists. split; [rewrite lookup_app_plus; reflexivity |].
    intros p row Hrow Hlen. rewrite multiprefs_disliked_lookup, Hrow.
    cbn [fmap option_fmap option_map]. split.
    + intros [= E]. apply flag_at_least_two. exact E.
    + intros Hc. f_equal. apply at_least_two_flag; [| exact Hc].
      pose proof (filter_length_bound (fun x => Float.lt x (Float.neg t)) row).
      unfold count_below. lia.
Qed.

Lemma both_of_row n t p person :
  both_of n t !! p = Some person ->
  exists row, n !! p = Some row /\ person = polarity t <$> row.
Proof.
  rewrite both_of_cells, list_lookup_fmap.
  destruct (n !! p) as [row |]; [| discriminate].
  intros [= <-]. eauto.
Qed.

Lemma polarity_row_lookup t (row : list Float.float64) i v :
  (polarity t <$> row) !! i = Some v ->
  exists x, row !! i = Some x /\ polarity t x = v.
Proof.
  rewrite list_lookup_fmap. destruct (row !! i) as [x |]; [| discriminate].
  intros [= <-]. eauto.
Qed.

(** The pairs one person contributes: two different columns, both holding
    the polarity [v]. *)
Lemma in_person_pairs (v : Z) (person : list Z) (i j : nat) :
  In (i, j) (Itertools.permutations2 (Numpy.where_eq v person))
  <-> i <> j /\ person !! i = Some v /\ person !! j = Some v.
Proof.
  rewrite in_permutations2. split.
  - intros (a & b & Hab & Ha & Hb).
    assert (Hi : In i (Numpy.where_eq v person))
      by (apply list_elem_of_In, list_elem_of_lookup; eauto).
    assert (Hj : In j (Numpy.where_eq v person))
      by (apply list_elem_of_In, list_elem_of_lookup; eauto).
    apply in_where_eq in Hi, Hj. split; [| auto].
    intros ->. apply Hab.
    exact (NoDup_lookup _ _ _ _ (where_from_NoDup 0 v person) Ha Hb).
  - intros (Hij & Hi & Hj).
    apply in_where_eq, list_elem_of_In, list_elem_of_lookup in Hi as (a & Ha).
    apply in_where_eq, list_elem_of_In, list_elem_of_lookup in Hj as (b & Hb).
    exists a, b. split; [| auto]. intros ->. apply Hij. congruence.
Qed.

(** The sampling loop leaves the names bound before it as they are. *)
Lemma dissimilar_part_names (fuel num_pods : nat) (ps ps' : paired) (w w' : world G) :
  dissimilar_part fuel num_pods ps w = (Return ps', w') ->
  earlier ps' = earlier ps /\ both ps' = both ps
  /\ contains_similar ps' = contains_similar ps
  /\ potential_similar_pairs ps' = potential_similar_pairs ps
  /\ unique_similar_pairs ps' = unique_similar_pairs ps.
Proof.
  unfold dissimilar_part, mbind, M_bind.
  destruct (sample_dissimilar _ _ _ _ _ w) as [[l | e |] w1]; try discriminate.
  intros [= <- <-]. auto.
Qed.

(** C5. Every pair of [potential_similar_pairs] has two different
    indices below [num_pods], both liked by one person with at least two
    likes or both disliked by one person with at least two dislikes; the
    list is the one the finished cell holds. *)
Theorem similar_pairs_wellformed (num_pods : nat) (nl : loc)
    (t : Float.float64) (w : world G) n :
  heap w !! nl = Some (FloatMatrix n) ->
  Forall (fun row => length row = num_pods) n ->
  exists ns w1 ps w2,
    threshold_cell nl t w = (Return ns, w1)
    /\ similar_part ns w1 = (Return ps, w2)
    /\ (forall fuel ps' w3,
          pair_cell fuel num_pods ns w1 = (Return ps', w3) ->
          potential_similar_pairs ps' = potential_similar_pairs ps)
    /\ forall i j,
        In (i, j) (potential_similar_pairs ps) ->
        i <> j /\ (i < num_pods)%nat /\ (j < num_pods)%nat
        /\ exists p row,
             n !! p = Some row
             /\ (((2 <= count_above row t)%nat /\ likes row t i /\ likes row t j)
                 \/ ((2 <= count_below row (Float.neg t))%nat
                     /\ dislikes row t i /\ dislikes row t j)).
Proof.
  intros Hn Hshape. destruct w as [h g out]. cbn [heap] in Hn.
  eexists _, _, _, _.
  split; [apply threshold_cell_run; exact Hn |].
  split; [apply similar_part_run |].
  cbn [heap rng stdout potential_similar_pairs]. split.
  { intros fuel ps' w3. rewrite pair_cell_run. intros Hrun.
    apply dissimilar_part_names in Hrun. apply Hrun. }
  intros i j. rewrite similar_of_flat, in_app_iff, !in_flat_map.
  intros [(person & Hperson & Hij) | (person & Hperson & Hij)];
    apply in_mask_rows in Hperson as (p & Hp & Hmask);
    apply both_of_row in Hp as (row & Hrow & ->);
    apply in_person_pairs in Hij as (Hne & Hi & Hj);
    apply polarity_row_lookup in Hi as (x & Hx & Hpx);
    apply polarity_row_lookup in Hj as (y & Hy & Hpy);
    assert (Hlen : length row = num_pods)
      by (rewrite Forall_forall in Hshape; apply Hshape;
          apply list_elem_of_lookup; eauto);
    (split; [exact Hne |]);
    (split; [rewrite <- Hlen; apply lookup_lt_Some in Hx; exact Hx |]);
    (split; [rewrite <- Hlen; apply lookup_lt_Some in Hy; exact Hy |]);
    exists p, row; (split; [exact Hrow |]).
  - left. rewrite multiprefs_liked_lookup, Hrow in Hmask.
    injection Hmask as Hmask. apply flag_at_least_two in Hmask.
    split; [exact Hmask |].
    split; [exists x | exists y]; (split; [assumption |]);
      apply polarity_liked; assumption.
  - right. rewrite multiprefs_disliked_lookup, Hrow in Hmask.
    injection Hmask as Hmask. apply flag_at_least_two in Hmask.
    split; [exact Hmask |].
    split; [exists x | exists y]; (split; [assumption |]);
      apply polarity_disliked; assumption.
Qed.


Lemma polarity_of_liked (t x : Float.float64) :
  Float.lt Float.zero t = true -> Float.gt x t = true -> polarity t x = 1.
Proof.
  intros Ht Hgt. rewrite polarity_value, Hgt.
  destruct (Float.lt x (Float.neg t)) eqn:Hlt; [| reflexivity].
  destruct (above_below_exclusive x t Ht Hgt Hlt).
Qed.

Lemma polarity_of_disliked (t x : Float.float64) :
  Float.lt Float.zero t = true -> Float.lt x (Float.neg t) = true ->
  polarity t x = -1.
Proof.
  intros Ht Hlt. rewrite polarity_value, Hlt.
  destruct (Float.gt x t) eqn:Hgt; [| reflexivity].
  destruct (above_below_exclusive x t Ht Hgt Hlt).
Qed.




End Cells.

(** ** The sampler *)

Section Sampler.

Context {G : Type} `{RandomSource G}.

(** The three comparisons of the test, on one polarity that is not the
    smallest int64. *)
Lemma acceptance_on_one_polarity (x : Z) :
  Int64.min_int < x <= Int64.max_int ->
  (x =? 0) || (x =? 0) || (x =? Int64.neg x) = (x =? 0).
Proof.
  intros Hrange. rewrite (eqb_neg_self x Hrange).
  destruct (x =? 0); reflexivity.
Qed.


Lemma random_sample2_run (n : nat) (w : world G) :
  (2 <= n)%nat ->
  random_sample2 n w
  = (Return (fst (draw_pair n (rng w))),
     {| heap := heap w; rng := snd (draw_pair n (rng w)); stdout := stdout w |}).
Proof.
  intros Hn. unfold random_sample2.
  destruct (Nat.ltb_spec n 2) as [Hlt | _]; [lia |].
  destruct (draw_pair n (rng w)) as [p g]. reflexivity.
Qed.

(** One pass of the loop on a one-sided person: another candidate, the
    flag still set, the counter where it was, nothing printed. *)
Lemma loop_body_one_sided (num_pods : nat) (person : list Z) (v : locals)
    (w : world G) :
  (2 <= num_pods)%nat -> length person = num_pods -> one_sided person ->
  attempts v <= 1000 ->
  loop_body num_pods person v w
  = (Return {| resample := resample v; attempts := attempts v;
               pod_ixs := Some (fst (draw_pair num_pods (rng w))) |},
     {| heap := heap w; rng := snd (draw_pair num_pods (rng w));
        stdout := stdout w |}).
Proof.
  intros Hn Hlen Hside Hatt. unfold loop_body.
  erewrite bind_return by (apply random_sample2_run; exact Hn).
  pose proof (draw_pair_lt_l num_pods (rng w) Hn) as Hfirst.
  destruct (fst (draw_pair num_pods (rng w))) as [i j] eqn:Epair.
  cbn [fst] in Hfirst.
  destruct (lookup_lt_is_Some_2 person i ltac:(lia)) as [x Hx].
  assert (Hcell : x <> 0 /\ Int64.min_int < x <= Int64.max_int).
  { unfold one_sided in Hside. rewrite Forall_forall in Hside.
    apply Hside. apply list_elem_of_lookup. eauto. }
  destruct Hcell as [Hnz Hrange].
  assert (Htest : polarity_test person i j
                    {| heap := heap w; rng := snd (draw_pair num_pods (rng w));
                       stdout := stdout w |}
                  = (Return (x =? 0),
                     {| heap := heap w; rng := snd (draw_pair num_pods (rng w));
                        stdout := stdout w |})).
  { unfold polarity_test, getitem. rewrite Hx.
    unfold mbind, M_bind, mret, M_ret.
    rewrite (acceptance_on_one_polarity x Hrange). reflexivity. }
  erewrite bind_return by exact Htest.
  destruct (Z.eqb_spec x 0) as [| _]; [contradiction |].
  destruct (Z.ltb_spec 1000 (attempts v)) as [| _]; [lia |].
  reflexivity.
Qed.

Lemma while_resample_one_sided (fuel num_pods : nat) (person : list Z)
    (v : locals) (w : world G) :
  (2 <= num_pods)%nat -> length person = num_pods -> one_sided person ->
  resample v = true -> attempts v <= 1000 ->
  fst (while_resample fuel num_pods person v w) = OutOfFuel
  /\ stdout (snd (while_resample fuel num_pods person v w)) = stdout w.
Proof.
  intros Hn Hlen Hside. revert v w.
  induction fuel as [| fuel IH]; intros v w Hre Hatt; simpl; rewrite Hre.
  - split; reflexivity.
  - erewrite bind_return by (apply loop_body_one_sided; assumption).
    destruct (IH {| resample := resample v; attempts := attempts v;
                    pod_ixs := Some (fst (draw_pair num_pods (rng w))) |}
                 {| heap := heap w; rng := snd (draw_pair num_pods (rng w));
                    stdout := stdout w |} Hre Hatt) as [IH1 IH2].
    split; [exact IH1 | exact IH2].
Qed.

Lemma choose_person_run (b : loc) (w : world G) (population : list (list Z)) :
  heap w !! b = Some (IntMatrix population) ->
  choose_person b w
  = (match population !! fst (draw_index (length population) (rng w)) with
     | Some person => Return person
     | None => Raise IndexError
     end,
     {| heap := heap w; rng := snd (draw_index (length population) (rng w));
        stdout := stdout w |}).
Proof.
  intros Hb. unfold choose_person.
  erewrite bind_return by (apply load_int_run; exact Hb).
  unfold random_choices1.
  destruct (draw_index (length population) (rng w)) as [k g]. cbn [fst snd].
  destruct (population !! k); reflexivity.
Qed.

(** With every person one-sided the call never returns: the counter
    [attempts] stays 0, so the cap is not reached and nothing is printed. *)
Lemma get_dissimilar_pair_one_sided (fuel num_pods : nat) (b : loc)
    (w : world G) (population : list (list Z)) :
  heap w !! b = Some (IntMatrix population) ->
  population <> [] -> (2 <= num_pods)%nat ->
  Forall (fun person => length person = num_pods /\ one_sided person) population ->
  fst (get_dissimilar_pair fuel num_pods b w) = OutOfFuel
  /\ stdout (snd (get_dissimilar_pair fuel num_pods b w)) = stdout w.
Proof.
  intros Hb Hne Hn Hall. unfold get_dissimilar_pair.
  assert (Hk : (fst (draw_index (length population) (rng w)) < length population)%nat).
  { apply draw_index_lt. destruct population; [contradiction | simpl; lia]. }
  destruct (lookup_lt_is_Some_2 _ _ Hk) as [person Hperson].
  erewrite bind_return by (rewrite (choose_person_run b w population Hb), Hperson;
                           reflexivity).
  rewrite Forall_forall in Hall.
  destruct (Hall person ltac:(apply list_elem_of_lookup; eauto)) as [Hlen Hside].
  set (w1 := {| heap := heap w;
                rng := snd (draw_index (length population) (rng w));
                stdout := stdout w |}).
  destruct (while_resample_one_sided fuel num_pods person
              {| resample := true; attempts := 0; pod_ixs := None |} w1
              Hn Hlen Hside eq_refl ltac:(simpl; lia)) as [E1 E2].
  unfold mbind, M_bind.
  destruct (while_resample fuel num_pods person
              {| resample := true; attempts := 0; pod_ixs := None |} w1)
    as [[v | e |] w2]; cbn [fst snd] in *; try discriminate.
  split; [reflexivity | exact E2].
Qed.

(** One pass of the loop, the counter not above the cap: nothing is
    printed, and the counter comes out as it went in. *)
Lemma loop_body_counter (num_pods : nat) (person : list Z) (v : locals)
    (w : world G) :
  attempts v <= 1000 ->
  stdout (snd (loop_body num_pods person v w)) = stdout w
  /\ forall v', fst (loop_body num_pods person v w) = Return v' ->
                attempts v' = attempts v.
Proof.
  intros Hatt.
  unfold loop_body, random_sample2, polarity_test, getitem, print, raise,
    mbind, M_bind, mret, M_ret.
  destruct (num_pods <? 2)%nat; [split; [reflexivity | discriminate] |].
  destruct (draw_pair num_pods (rng w)) as [[i j] g].
  destruct (person !! i) as [x |]; [| split; [reflexivity | discriminate]].
  destruct ((x =? 0) || (x =? 0) || (x =? Int64.neg x)).
  - cbn [fst snd stdout]. split; [reflexivity |]. intros v' [= <-]. reflexivity.
  - destruct (Z.ltb_spec 1000 (attempts v)) as [| _]; [lia |].
    cbn [fst snd stdout]. split; [reflexivity |]. intros v' [= <-]. reflexivity.
Qed.

Lemma while_resample_silent (fuel num_pods : nat) (person : list Z)
    (v : locals) (w : world G) :
  attempts v <= 1000 ->
  stdout (snd (while_resample fuel num_pods person v w)) = stdout w.
Proof.
  revert v w. induction fuel as [| fuel IH]; intros v w Hatt; simpl;
    destruct (resample v); try reflexivity.
  destruct (loop_body_counter num_pods person v w Hatt) as [Hout Hcount].
  unfold mbind, M_bind.
  destruct (loop_body num_pods person v w) as [[v' | e |] w1];
    cbn [fst snd] in *; try exact Hout.
  rewrite IH; [exact Hout |]. rewrite (Hcount v' eq_refl). exact Hatt.
Qed.

(** No call of [get_dissimilar_pair] prints: the loop starts with
    [attempts = 0] and no pass changes it. *)
Lemma get_dissimilar_pair_silent (fuel num_pods : nat) (b : loc) (w : world G) :
  stdout (snd (get_dissimilar_pair fuel num_pods b w)) = stdout w.
Proof.
  unfold get_dissimilar_pair, choose_person, load_int, load, random_choices1,
    raise, mbind, M_bind, mret, M_ret.
  destruct (heap w !! b) as [[m | population | m] |]; try reflexivity.
  destruct (draw_index (length population) (rng w)) as [k g].
  destruct (population !! k) as [person |]; [| reflexivity].
  pose proof (while_resample_silent fuel num_pods person
                {| resample := true; attempts := 0; pod_ixs := None |}
                {| heap := heap w; rng := g; stdout := stdout w |}
                ltac:(simpl; lia)) as Hsilent.
  destruct (while_resample fuel num_pods person
              {| resample := true; attempts := 0; pod_ixs := None |}
              {| heap := heap w; rng := g; stdout := stdout w |})
    as [[v | e |] w1]; cbn [fst snd stdout] in *; try exact Hsilent.
  destruct (pod_ixs v); exact Hsilent.
Qed.

(** C2. The cap of 1000 attempts is never reached: [attempts] is never
    incremented, so no call of [get_dissimilar_pair], on any input, prints
    the diagnostic note; and with one person who likes both of two
    podcasts the call does not return on any amount of fuel, for any state
    of the generator. *)
Theorem retry_cap_never_reached :
  (forall (fuel num_pods : nat) (b : loc) (w : world G),
      stdout (snd (get_dissimilar_pair fuel num_pods b w)) = stdout w)
  /\ forall (fuel : nat) (g : G) (out : list string),
       fst (get_dissimilar_pair fuel 2 0%nat
              {| heap := [IntMatrix [[1; 1]]]; rng := g; stdout := out |})
       = OutOfFuel.
Proof.
  split; [exact get_dissimilar_pair_silent |].
  intros fuel g out.
  apply (get_dissimilar_pair_one_sided fuel 2 0%nat
           {| heap := [IntMatrix [[1; 1]]]; rng := g; stdout := out |}
           [[1; 1]]).
  - reflexivity.
  - discriminate.
  - lia.
  - repeat constructor; unfold Int64.min_int, Int64.max_int; lia.
Qed.

(** C3. The person of a request is a row of the whole matrix [both], one
    row per person of [normed], flagged by a mask or not: the row at the
    position the generator draws below the number of people.  The store is
    left as it is, so every request draws from the same rows. *)
Theorem choose_person_any_row (nl : loc) (t : Float.float64) (w : world G) n :
  heap w !! nl = Some (FloatMatrix n) ->
  n <> [] ->
  exists ns w1 ps w2 B,
    threshold_cell nl t w = (Return ns, w1)
    /\ similar_part ns w1 = (Return ps, w2)
    /\ heap w2 !! both ps = Some (IntMatrix B)
    /\ length B = length n
    /\ forall w3 : world G,
        heap w3 = heap w2 ->
        (fst (draw_index (length n) (rng w3)) < length n)%nat
        /\ exists person,
             B !! fst (draw_index (length n) (rng w3)) = Some person
             /\ choose_person (both ps) w3
                = (Return person,
                   {| heap := heap w3;
                      rng := snd (draw_index (length n) (rng w3));
                      stdout := stdout w3 |}).
Proof.
  intros Hn Hne. destruct w as [h g out]. cbn [heap] in Hn.
  eexists _, _, _, _, (both_of n t).
  split; [apply threshold_cell_run; exact Hn |].
  split; [apply similar_part_run |].
  cbn [heap rng stdout both].
  assert (Hlen : length (both_of n t) = length n)
    by (rewrite both_of_cells; apply length_fmap).
  assert (Hb : heap_paired h n t !! (length h + 4)%nat
               = Some (IntMatrix (both_of n t)))
    by (unfold heap_paired; rewrite lookup_app_plus; reflexivity).
  split; [exact Hb |]. split; [exact Hlen |].
  intros w3 Hw3.
  assert (Hk : (fst (draw_index (length n) (rng w3)) < length n)%nat).
  { apply draw_index_lt. destruct n; [contradiction | simpl; lia]. }
  split; [exact Hk |].
  destruct (lookup_lt_is_Some_2 (both_of n t)
              (fst (draw_index (length n) (rng w3))) ltac:(lia))
    as [person Hperson].
  exists person. split; [exact Hperson |].
  rewrite (choose_person_run (length h + 4)%nat w3 (both_of n t))
    by (rewrite Hw3; exact Hb).
  rewrite Hlen, Hperson. reflexivity.
Qed.

Lemma sample_dissimilar_calls (fuel num_pods : nat) (b : loc) (k : nat)
    (pairs : list (nat * nat)) (w w' : world G) (l : list (nat * nat)) :
  sample_dissimilar fuel num_pods b k pairs w = (Return l, w') ->
  exists ps, l = pairs ++ ps /\ length ps = k /\ calls fuel num_pods b w ps w'.
Proof.
  revert pairs w. induction k as [| k IH]; intros pairs w; simpl.
  - intros [= <- <-]. exists []. rewrite app_nil_r.
    split; [reflexivity |]. split; [reflexivity | constructor].
  - unfold mbind, M_bind.
    destruct (get_dissimilar_pair fuel num_pods b w) as [[p | e |] w1] eqn:Ecall;
      try discriminate.
    intros Hrest. apply IH in Hrest as (ps & -> & Hlen & Hcalls).
    exists (p :: ps). rewrite <- app_assoc.
    split; [reflexivity |]. split; [simpl; lia |].
    econstructor; eassumption.
Qed.

(** C6. When the pair-construction cell has run to its end,
    [potential_dissimilar_pairs] is as long as [potential_similar_pairs],
    and its pairs are what as many calls of [get_dissimilar_pair(both)],
    made one after the other, returned. *)
Theorem dissimilar_count_matches (fuel num_pods : nat) (ns : thresholded)
    (w w' : world G) (ps : paired) :
  pair_cell fuel num_pods ns w = (Return ps, w') ->
  length (potential_dissimilar_pairs ps) = length (potential_similar_pairs ps)
  /\ exists w0, calls fuel num_pods (both ps) w0 (potential_dissimilar_pairs ps) w'.
Proof.
  unfold pair_cell, mbind, M_bind.
  destruct (similar_part ns w) as [[ps0 | e |] w0]; try discriminate.
  unfold dissimilar_part, mbind, M_bind.
  destruct (sample_dissimilar fuel num_pods (both ps0)
              (length (potential_similar_pairs ps0)) [] w0)
    as [[l | e |] w1] eqn:Esample; try discriminate.
  intros [= <- <-]. cbn [potential_dissimilar_pairs potential_similar_pairs both].
  apply sample_dissimilar_calls in Esample as (pairs & -> & Hlen & Hcalls).
  simpl. split; [exact Hlen |]. exists w0. exact Hcalls.
Qed.

(** C9. [get_dissimilar_pair] raises [IndexError] when the matrix it is
    given has no row, that is when there is no person at all. *)
Theorem get_dissimilar_pair_no_people (fuel num_pods : nat) (b : loc)
    (w : world G) :
  heap w !! b = Some (IntMatrix []) ->
  fst (get_dissimilar_pair fuel num_pods b w) = Raise IndexError.
Proof.
  intros Hb. unfold get_dissimilar_pair.
  erewrite bind_raise; [reflexivity |].
  rewrite (choose_person_run b w [] Hb). reflexivity.
Qed.

End Sampler.

(** ** The small run, evaluated *)


Lemma choose_person_any_row_witness :
  heap (demo_world demo_tape) !! 0%nat = Some (FloatMatrix demo_normed)
  /\ demo_normed <> []
  /\ exists ns w1 ps w2 B,
       threshold_cell 0%nat demo_threshold (demo_world demo_tape) = (Return ns, w1)
       /\ similar_part ns w1 = (Return ps, w2)
       /\ heap w2 !! both ps = Some (IntMatrix B)
       /\ length B = length demo_normed
       /\ forall w3 : world (list nat),
           heap w3 = heap w2 ->
           (fst (draw_index (length demo_normed) (rng w3)) < length demo_normed)%nat
           /\ exists person,
                B !! fst (draw_index (length demo_normed) (rng w3)) = Some person
                /\ choose_person (both ps) w3
                   = (Return person,
                      {| heap := heap w3;
                         rng := snd (draw_index (length demo_normed) (rng w3));
                         stdout := stdout w3 |}).
Proof.
  split; [reflexivity |].
  split; [discriminate |].
  apply (choose_person_any_row 0%nat demo_threshold (demo_world demo_tape)
           demo_normed); [reflexivity | discriminate].
Defined.

(** Against C3 as stated: the generator draws position 1, and person 1,
    flagged by neither mask, is the chosen person. *)
Lemma chosen_person_outside_pool :
  exists ns w1 ps w2 B ML MD w3,
    threshold_cell 0%nat demo_threshold (demo_world [1%nat]) = (Return ns, w1)
    /\ similar_part ns w1 = (Return ps, w2)
    /\ heap w2 !! both ps = Some (IntMatrix B)
    /\ heap w2 !! multiprefs_liked ns = Some (BoolVector ML)
    /\ heap w2 !! multiprefs_disliked ns = Some (BoolVector MD)
    /\ choose_person (both ps) w2 = (Return [0; 0; 1], w3)
    /\ B !! 1%nat = Some [0; 0; 1]
    /\ ML !! 1%nat = Some false
    /\ MD !! 1%nat = Some false
    /\ Numpy.mask_rows B ML ++ Numpy.mask_rows B MD = [[1; 1; 0]; [-1; 0; -1]]
    /\ ~ In [0; 0; 1] (Numpy.mask_rows B ML ++ Numpy.mask_rows B MD).
Proof.
  eexists _, _, _, _, _, _, _, _.
  split; [vm_compute; reflexivity |].
  split; [vm_compute; reflexivity |].
  split; [vm_compute; reflexivity |].
  split; [vm_compute; reflexivity |].
  split; [vm_compute; reflexivity |].
  split; [vm_compute; reflexivity |].
  split; [reflexivity |].
  split; [reflexivity |].
  split; [reflexivity |].
  split; [reflexivity |].
  simpl. intros [E | [E | []]]; discriminate.
Qed.

(** C4. Same store, same threshold, same number of podcasts, same fuel:
    the two runs differ in the state of Python's [random] module alone,
    which [np.random.seed] does not set, and they end with the same
    similar pairs and different dissimilar pairs. *)
Theorem dissimilar_pairs_follow_random_state :
  exists psA wA psB wB,
    notebook 5 3 0%nat demo_threshold (demo_world demo_tape) = (Return psA, wA)
    /\ notebook 5 3 0%nat demo_threshold
         (demo_world (0 :: 2 :: 1 :: drop 3 demo_tape)%nat) = (Return psB, wB)
    /\ heap wA = heap wB
    /\ potential_similar_pairs psA = potential_similar_pairs psB
    /\ potential_dissimilar_pairs psA = [(2, 0); (0, 2); (1, 0); (2, 1)]%nat
    /\ potential_dissimilar_pairs psB = [(2, 1); (0, 2); (1, 0); (2, 1)]%nat
    /\ potential_dissimilar_pairs psA <> potential_dissimilar_pairs psB.
Proof.
  eexists _, _, _, _.
  split; [vm_compute; reflexivity |].
  split; [vm_compute; reflexivity |].
  split; [reflexivity |].
  split; [reflexivity |].
  split; [reflexivity |].
  split; [reflexivity |].
  simpl. discriminate.
Qed.

Lemma similar_pairs_wellformed_witness :
  heap (demo_world demo_tape) !! 0%nat = Some (FloatMatrix demo_normed)
  /\ Forall (fun row => length row = 3%nat) demo_normed
  /\ exists ns w1 ps w2,
       threshold_cell 0%nat demo_threshold (demo_world demo_tape) = (Return ns, w1)
       /\ similar_part ns w1 = (Return ps, w2)
       /\ (forall fuel ps' w3,
             pair_cell fuel 3 ns w1 = (Return ps', w3) ->
             potential_similar_pairs ps' = potential_similar_pairs ps)
       /\ forall i j,
           In (i, j) (potential_similar_pairs ps) ->
           i <> j /\ (i < 3)%nat /\ (j < 3)%nat
           /\ exists p row,
                demo_normed !! p = Some row
                /\ (((2 <= count_above row demo_threshold)%nat
                     /\ likes row demo_threshold i /\ likes row demo_threshold j)
                    \/ ((2 <= count_below row (Float.neg demo_threshold))%nat
                        /\ dislikes row demo_threshold i
                        /\ dislikes row demo_threshold j)).
Proof.
  split; [reflexivity |].
  split; [repeat constructor |].
  apply (similar_pairs_wellformed 3 0%nat demo_threshold (demo_world demo_tape)
           demo_normed); [reflexivity | repeat constructor].
Defined.

Lemma dissimilar_count_matches_witness :
  pair_cell 5 3 demo_names (demo_thresholded demo_tape [])
  = (Return demo_pairs, demo_paired [] [])
  /\ length (potential_dissimilar_pairs demo_pairs)
     = length (potential_similar_pairs demo_pairs)
  /\ exists w0, calls 5 3 (both demo_pairs) w0
                  (potential_dissimilar_pairs demo_pairs) (demo_paired [] []).
Proof.
  assert (E : pair_cell 5 3 demo_names (demo_thresholded demo_tape [])
              = (Return demo_pairs, demo_paired [] []))
    by (vm_compute; reflexivity).
  split; [exact E |].
  exact (dissimilar_count_matches 5 3 demo_names (demo_thresholded demo_tape [])
           (demo_paired [] []) demo_pairs E).
Defined.


Lemma liked_disliked_exclusive_witness :
  heap (demo_world demo_tape) !! 0%nat = Some (FloatMatrix demo_normed)
  /\ Float.lt Float.zero demo_threshold = true
  /\ exists ns w1 L D,
       threshold_cell 0%nat demo_threshold (demo_world demo_tape) = (Return ns, w1)
       /\ heap w1 !! liked ns = Some (IntMatrix L)
       /\ heap w1 !! disliked ns = Some (IntMatrix D)
       /\ (forall p i, ~ (cell L p i = Some 1 /\ cell D p i = Some 1))
       /\ exists ps w2 B,
            similar_part ns w1 = (Return ps, w2)
            /\ heap w2 !! both ps = Some (IntMatrix B)
            /\ forall p i x, cell B p i = Some x -> x = -1 \/ x = 0 \/ x = 1.
Proof.
  split; [reflexivity |].
  split; [reflexivity |].
  apply (liked_disliked_exclusive 0%nat demo_threshold (demo_world demo_tape)
           demo_normed); reflexivity.
Defined.

Lemma get_dissimilar_pair_no_people_witness :
  heap {| heap := [IntMatrix []]; rng := demo_tape; stdout := [] |} !! 0%nat
  = Some (IntMatrix [])
  /\ fst (get_dissimilar_pair 5 3 0%nat
            {| heap := [IntMatrix []]; rng := demo_tape; stdout := [] |})
     = Raise IndexError.
Proof.
  split; [reflexivity |].
  apply get_dissimilar_pair_no_people. reflexivity.
Defined.

(** Against C9 as stated: one person, flagged by neither mask, so the
    pool of flagged people is empty; [get_dissimilar_pair(both)] draws that
    person and returns the pair (1, 0). *)
Lemma empty_pool_returns_pair :
  exists ns w1 ps w2 B ML MD w3,
    threshold_cell 0%nat demo_threshold
      {| heap := [FloatMatrix lonely_normed]; rng := [0; 1; 0]%nat; stdout := [] |}
    = (Return ns, w1)
    /\ similar_part ns w1 = (Return ps, w2)
    /\ heap w2 !! both ps = Some (IntMatrix B)
    /\ heap w2 !! multiprefs_liked ns = Some (BoolVector ML)
    /\ heap w2 !! multiprefs_disliked ns = Some (BoolVector MD)
    /\ Numpy.mask_rows B ML ++ Numpy.mask_rows B MD = []
    /\ get_dissimilar_pair 1 2 (both ps) w2 = (Return (1, 0)%nat, w3).
Proof.
  eexists _, _, _, _, _, _, _, _.
  split; [vm_compute; reflexivity |].
  split; [vm_compute; reflexivity |].
  split; [vm_compute; reflexivity |].
  split; [vm_compute; reflexivity |].
  split; [vm_compute; reflexivity |].
  split; [reflexivity |].
  vm_compute. reflexivity.
Qed.

Lemma pair_construction_frame_witness :
  heap (demo_world demo_tape) !! 0%nat = Some (FloatMatrix demo_normed)
  /\ exists ns w1,
       threshold_cell 0%nat demo_threshold (demo_world demo_tape) = (Return ns, w1)
       /\ forall out w2,
           pair_cell 5 3 ns w1 = (out, w2) ->
           (forall l : loc, (l < length (heap w1))%nat -> l <> disliked ns ->
                            heap w2 !! l = heap w1 !! l)
           /\ heap w2 !! normed ns = Some (FloatMatrix demo_normed)
           /\ heap w2 !! liked ns = heap w1 !! liked ns
           /\ heap w2 !! multiprefs_liked ns = heap w1 !! multiprefs_liked ns
           /\ heap w2 !! multiprefs_disliked ns = heap w1 !! multiprefs_disliked ns
           /\ (exists D, heap w2 !! disliked ns = Some (IntMatrix D)
                         /\ forall p i x, cell D p i = Some x -> x = 0 \/ x = -1)
           /\ exists MD, heap w2 !! multiprefs_disliked ns = Some (BoolVector MD)
                /\ forall p row, demo_normed !! p = Some row ->
                     Z.of_nat (length row) < 2 ^ 63 ->
                     (MD !! p = Some true
                      <-> (2 <= count_below row (Float.neg demo_threshold))%nat).
Proof.
  split; [reflexivity |].
  apply (pair_construction_frame 5 3 0%nat demo_threshold (demo_world demo_tape)
           demo_normed). reflexivity.
Defined.

(** ** Further properties of the sampler *)

Section SamplerMore.

Context {G : Type} `{RandomSource G}.

(** What a returning pass of the loop leaves: the candidate just drawn,
    the flag cleared exactly when the test passed at its first index. *)
Lemma loop_body_result (num_pods : nat) (person : list Z) (v v' : locals)
    (w w' : world G) :
  attempts v <= 1000 ->
  loop_body num_pods person v w = (Return v', w') ->
  (2 <= num_pods)%nat
  /\ attempts v' = attempts v
  /\ pod_ixs v' = Some (fst (draw_pair num_pods (rng w)))
  /\ exists x,
       person !! fst (fst (draw_pair num_pods (rng w))) = Some x
       /\ resample v'
          = (if (x =? 0) || (x =? 0) || (x =? Int64.neg x) then false
             else resample v).
Proof.
  intros Hatt.
  unfold loop_body, random_sample2, polarity_test, getitem, print, raise,
    mbind, M_bind, mret, M_ret.
  destruct (Nat.ltb_spec num_pods 2) as [| Hn]; [discriminate |].
  destruct (draw_pair num_pods (rng w)) as [[i j] g]. cbn [fst].
  destruct (person !! i) as [x |]; [| discriminate].
  destruct ((x =? 0) || (x =? 0) || (x =? Int64.neg x)) eqn:Etest.
  - intros [= <- <-]. cbn. split; [exact Hn |]. split; [reflexivity |].
    split; [reflexivity |]. exists x. rewrite Etest. auto.
  - destruct (Z.ltb_spec 1000 (attempts v)) as [| _]; [lia |].
    intros [= <- <-]. cbn. split; [exact Hn |]. split; [reflexivity |].
    split; [reflexivity |]. exists x. rewrite Etest. auto.
Qed.

(** The loop leaves through the acceptance test only. *)
Lemma while_resample_returns (fuel num_pods : nat) (person : list Z)
    (v v' : locals) (w w' : world G) :
  attempts v <= 1000 -> resample v = true ->
  while_resample fuel num_pods person v w = (Return v', w') ->
  exists f s x,
    pod_ixs v' = Some (f, s)
    /\ (f < num_pods)%nat /\ (s < num_pods)%nat /\ f <> s
    /\ person !! f = Some x
    /\ (x =? 0) || (x =? 0) || (x =? Int64.neg x) = true.
Proof.
  revert v w. induction fuel as [| fuel IH]; intros v w Hatt Hre; simpl;
    rewrite Hre; [discriminate |].
  unfold mbind, M_bind.
  destruct (loop_body num_pods person v w) as [[v1 | e |] w1] eqn:Ebody;
    try discriminate.
  destruct (loop_body_result _ _ _ _ _ _ Hatt Ebody)
    as (Hn & Hatt1 & Hixs & x & Hx & Hflag).
  destruct ((x =? 0) || (x =? 0) || (x =? Int64.neg x)) eqn:Etest.
  - destruct fuel; simpl; rewrite Hflag; intros [= <- <-];
      destruct (fst (draw_pair num_pods (rng w))) as [f s] eqn:Epair;
      exists f, s, x;
      pose proof (draw_pair_lt_l num_pods (rng w) Hn) as H1;
      pose proof (draw_pair_lt_r num_pods (rng w) Hn) as H2;
      pose proof (draw_pair_ne num_pods (rng w) Hn) as H3;
      rewrite Epair in H1, H2, H3; cbn [fst snd] in *; auto 10.
  - apply IH; [lia | rewrite Hflag; exact Hre].
Qed.

Lemma get_dissimilar_pair_returns (fuel num_pods : nat) (b : loc)
    (w w' : world G) (population : list (list Z)) (f s : nat) :
  heap w !! b = Some (IntMatrix population) ->
  get_dissimilar_pair fuel num_pods b w = (Return (f, s), w') ->
  (f < num_pods)%nat /\ (s < num_pods)%nat /\ f <> s
  /\ exists person x,
       In person population /\ person !! f = Some x
       /\ (x =? 0) || (x =? 0) || (x =? Int64.neg x) = true.
Proof.
  intros Hb. unfold get_dissimilar_pair.
  unfold mbind at 1. unfold M_bind. rewrite (choose_person_run b w population Hb).
  destruct (population !! fst (draw_index (length population) (rng w)))
    as [person |] eqn:Eperson; [| discriminate].
  unfold mbind, M_bind.
  destruct (while_resample fuel num_pods person _ _) as [[v | e |] w1] eqn:Eloop;
    try discriminate.
  apply while_resample_returns in Eloop as (f0 & s0 & x & Hixs & Hf & Hs & Hne & Hx & Ht);
    [| simpl; lia | reflexivity].
  rewrite Hixs. intros [= <- <- <-].
  split; [exact Hf |]. split; [exact Hs |]. split; [exact Hne |].
  exists person, x. split; [| auto].
  apply list_elem_of_In, list_elem_of_lookup. eauto.
Qed.

(** Every pair of a chain of calls was returned by a call made on the
    store the chain started from. *)
Lemma calls_each (fuel num_pods : nat) (b : loc) (w w' : world G)
    (ps : list (nat * nat)) :
  calls fuel num_pods b w ps w' ->
  forall p, In p ps ->
    exists wa wb, heap wa = heap w
                  /\ get_dissimilar_pair fuel num_pods b wa = (Return p, wb).
Proof.
  induction 1 as [w | w w1 w2 p ps Hcall Hrest IH]; intros q Hq.
  - destruct Hq.
  - destruct Hq as [<- | Hq].
    + exists w, w1. auto.
    + destruct (IH q Hq) as (wa & wb & Hheap & Hq').
      exists wa, wb. split; [| exact Hq'].
      rewrite Hheap.
      pose proof (reads_only_get_dissimilar_pair fuel num_pods b w) as Hro.
      rewrite Hcall in Hro. exact Hro.
Qed.

(** X1. Every pair the finished pair-construction cell holds in
    [potential_dissimilar_pairs] has two different indices below
    [num_pods], and, for a threshold above zero, its first podcast is one
    some person neither likes nor dislikes; nothing is asked of the
    second. *)
Theorem dissimilar_pairs_neutral_first (fuel num_pods : nat) (nl : loc)
    (t : Float.float64) (w : world G) n :
  heap w !! nl = Some (FloatMatrix n) ->
  Float.lt Float.zero t = true ->
  exists ns w1,
    threshold_cell nl t w = (Return ns, w1)
    /\ forall ps w2,
        pair_cell fuel num_pods ns w1 = (Return ps, w2) ->
        forall f s,
          In (f, s) (potential_dissimilar_pairs ps) ->
          f <> s /\ (f < num_pods)%nat /\ (s < num_pods)%nat
          /\ exists p row,
               n !! p = Some row
               /\ is_Some (row !! f)
               /\ ~ likes row t f /\ ~ dislikes row t f.
Proof.
  intros Hn Ht. destruct w as [h g out]. cbn [heap] in Hn.
  eexists _, _. split; [apply threshold_cell_run; exact Hn |].
  cbn [heap rng stdout]. intros ps w2. rewrite pair_cell_run.
  unfold dissimilar_part, mbind, M_bind.
  destruct (sample_dissimilar _ _ _ _ _ _) as [[l | e |] w3] eqn:Esample;
    try discriminate.
  intros [= <- <-]. cbn [potential_dissimilar_pairs both] in *.
  intros f s Hin.
  apply sample_dissimilar_calls in Esample as (pairs & -> & _ & Hcalls).
  simpl in Hin.
  destruct (calls_each _ _ _ _ _ _ Hcalls (f, s) Hin) as (wa & wb & Hheap & Hcall).
  cbn [heap] in Hheap.
  assert (Hb : heap wa !! (length h + 4)%nat = Some (IntMatrix (both_of n t)))
    by (rewrite Hheap; unfold heap_paired; rewrite lookup_app_plus; reflexivity).
  destruct (get_dissimilar_pair_returns _ _ _ _ _ _ _ _ Hb Hcall)
    as (Hf & Hs & Hne & person & x & Hperson & Hx & Htest).
  split; [exact Hne |]. split; [exact Hf |]. split; [exact Hs |].
  apply list_elem_of_In, list_elem_of_lookup in Hperson as (p & Hp).
  apply both_of_row in Hp as (row & Hrow & ->).
  apply polarity_row_lookup in Hx as (y & Hy & Hpy).
  exists p, row. split; [exact Hrow |]. split; [eauto |].
  assert (Hzero : polarity t y = 0).
  { rewrite acceptance_on_one_polarity in Htest
      by (unfold Int64.min_int, Int64.max_int;
          destruct (polarity_range t y) as [E | [E | E]]; rewrite <- Hpy, E; lia).
    apply Z.eqb_eq in Htest. congruence. }
  split.
  - intros (y' & Hy' & Hgt). assert (y' = y) by congruence. subst y'.
    rewrite (polarity_of_liked t y Ht Hgt) in Hzero. discriminate.
  - intros (y' & Hy' & Hlt). assert (y' = y) by congruence. subst y'.
    rewrite (polarity_of_disliked t y Ht Hlt) in Hzero. discriminate.
Qed.

(** X2. With at least one person and fewer than two podcasts,
    [get_dissimilar_pair] raises [ValueError]: [random.sample] cannot
    draw two of them. *)
Theorem get_dissimilar_pair_needs_two_podcasts (fuel num_pods : nat) (b : loc)
    (w : world G) (population : list (list Z)) :
  heap w !! b = Some (IntMatrix population) ->
  population <> [] ->
  (num_pods < 2)%nat ->
  fst (get_dissimilar_pair (S fuel) num_pods b w) = Raise ValueError.
Proof.
  intros Hb Hne Hn. unfold get_dissimilar_pair.
  assert (Hk : (fst (draw_index (length population) (rng w)) < length population)%nat).
  { apply draw_index_lt. destruct population; [contradiction | simpl; lia]. }
  destruct (lookup_lt_is_Some_2 _ _ Hk) as [person Hperson].
  erewrite bind_return
    by (rewrite (choose_person_run b w population Hb), Hperson; reflexivity).
  erewrite bind_raise; [reflexivity |].
  simpl. erewrite bind_raise; [reflexivity |].
  unfold loop_body. erewrite bind_raise; [reflexivity |].
  unfold random_sample2.
  destruct (Nat.ltb_spec num_pods 2) as [_ | Hge]; [reflexivity | lia].
Qed.

Lemma loop_body_accepts (num_pods : nat) (person : list Z) (v : locals)
    (w : world G) :
  (2 <= num_pods)%nat ->
  person !! fst (fst (draw_pair num_pods (rng w))) = Some 0 ->
  loop_body num_pods person v w
  = (Return {| resample := false; attempts := attempts v;
               pod_ixs := Some (fst (draw_pair num_pods (rng w))) |},
     {| heap := heap w; rng := snd (draw_pair num_pods (rng w));
        stdout := stdout w |}).
Proof.
  intros Hn Hx. unfold loop_body.
  erewrite bind_return by (apply random_sample2_run; exact Hn).
  destruct (fst (draw_pair num_pods (rng w))) as [i j] eqn:Epair.
  cbn [fst] in Hx. unfold polarity_test, getitem. rewrite Hx. reflexivity.
Qed.

Lemma loop_body_rejects (num_pods : nat) (person : list Z) (v : locals)
    (w : world G) (x : Z) :
  (2 <= num_pods)%nat ->
  person !! fst (fst (draw_pair num_pods (rng w))) = Some x ->
  x <> 0 -> Int64.min_int < x <= Int64.max_int ->
  attempts v <= 1000 ->
  loop_body num_pods person v w
  = (Return {| resample := resample v; attempts := attempts v;
               pod_ixs := Some (fst (draw_pair num_pods (rng w))) |},
     {| heap := heap w; rng := snd (draw_pair num_pods (rng w));
        stdout := stdout w |}).
Proof.
  intros Hn Hx Hnz Hrange Hatt. unfold loop_body.
  erewrite bind_return by (apply random_sample2_run; exact Hn).
  destruct (fst (draw_pair num_pods (rng w))) as [i j] eqn:Epair.
  cbn [fst] in Hx. unfold polarity_test, getitem. rewrite Hx.
  unfold mbind, M_bind, mret, M_ret.
  rewrite (acceptance_on_one_polarity x Hrange).
  destruct (Z.eqb_spec x 0) as [| _]; [contradiction |].
  destruct (Z.ltb_spec 1000 (attempts v)) as [| _]; [lia |].
  reflexivity.
Qed.

Lemma while_resample_first_neutral (k : nat) :
  forall (fuel num_pods : nat) (person : list Z) (v : locals) (w : world G),
    (2 <= num_pods)%nat -> resample v = true -> attempts v <= 1000 ->
    (k < fuel)%nat ->
    (forall i, (i < k)%nat ->
       exists x, person !! fst (candidate num_pods i (rng w)) = Some x
                 /\ x <> 0 /\ Int64.min_int < x <= Int64.max_int) ->
    person !! fst (candidate num_pods k (rng w)) = Some 0 ->
    while_resample fuel num_pods person v w
    = (Return {| resample := false; attempts := attempts v;
                 pod_ixs := Some (candidate num_pods k (rng w)) |},
       {| heap := heap w; rng := after_samples num_pods (S k) (rng w);
          stdout := stdout w |}).
Proof.
  induction k as [| k IH]; intros fuel num_pods person v w Hn Hre Hatt Hfuel
    Hrej Hacc; (destruct fuel as [| fuel]; [lia |]); simpl; rewrite Hre.
  - erewrite bind_return by (apply loop_body_accepts; assumption).
    destruct fuel; reflexivity.
  - destruct (Hrej 0%nat ltac:(lia)) as (x & Hx & Hnz & Hrange).
    erewrite bind_return by (eapply loop_body_rejects; eassumption).
    rewrite (IH fuel num_pods person _
               {| heap := heap w; rng := snd (draw_pair num_pods (rng w));
                  stdout := stdout w |}); try assumption.
    + reflexivity.
    + lia.
    + intros i Hi. exact (Hrej (S i) ltac:(lia)).
Qed.

(** X3. [get_dissimilar_pair] returns the first candidate whose first
    index the chosen person is neutral about: when the candidates before
    the [k]-th are refused (a polarity other than 0 at their first index)
    and the [k]-th has polarity 0 there, any fuel above [k] gives the
    [k]-th candidate, after [k + 1] draws of [random.sample] and with
    nothing printed. *)
Theorem get_dissimilar_pair_first_neutral (fuel num_pods k : nat) (b : loc)
    (w : world G) (population : list (list Z)) (person : list Z) :
  heap w !! b = Some (IntMatrix population) ->
  population !! fst (draw_index (length population) (rng w)) = Some person ->
  (2 <= num_pods)%nat ->
  (forall i, (i < k)%nat ->
     exists x,
       person !! fst (candidate num_pods i
                        (snd (draw_index (length population) (rng w)))) = Some x
       /\ x <> 0 /\ Int64.min_int < x <= Int64.max_int) ->
  person !! fst (candidate num_pods k
                   (snd (draw_index (length population) (rng w)))) = Some 0 ->
  (k < fuel)%nat ->
  get_dissimilar_pair fuel num_pods b w
  = (Return (candidate num_pods k (snd (draw_index (length population) (rng w)))),
     {| heap := heap w;
        rng := after_samples num_pods (S k)
                 (snd (draw_index (length population) (rng w)));
        stdout := stdout w |}).
Proof.
  intros Hb Hperson Hn Hrej Hacc Hfuel. unfold get_dissimilar_pair.
  erewrite bind_return
    by (rewrite (choose_person_run b w population Hb), Hperson; reflexivity).
  erewrite bind_return
    by (apply (while_resample_first_neutral k); try assumption;
        [reflexivity | simpl; lia]).
  reflexivity.
Qed.

Lemma sample_dissimilar_silent (fuel num_pods : nat) (b : loc) (k : nat)
    (pairs : list (nat * nat)) (w : world G) :
  stdout (snd (sample_dissimilar fuel num_pods b k pairs w)) = stdout w.
Proof.
  revert pairs w. induction k as [| k IH]; intros pairs w; simpl;
    [reflexivity |].
  pose proof (get_dissimilar_pair_silent fuel num_pods b w) as Hcall.
  unfold mbind, M_bind.
  destruct (get_dissimilar_pair fuel num_pods b w) as [[p | e |] w1];
    cbn [fst snd] in *; try exact Hcall.
  rewrite IH. exact Hcall.
Qed.

(** X4. The sampling loop reads: whatever its outcome (pairs returned, an
    exception, a call still running), no array object is changed and
    nothing is printed; only the state of the generator moves. *)
Theorem sampling_loop_frame (fuel num_pods : nat) (b : loc) (k : nat)
    (pairs : list (nat * nat)) (w : world G) :
  heap (snd (sample_dissimilar fuel num_pods b k pairs w)) = heap w
  /\ stdout (snd (sample_dissimilar fuel num_pods b k pairs w)) = stdout w.
Proof.
  split; [apply reads_only_sample_dissimilar | apply sample_dissimilar_silent].
Qed.

End SamplerMore.

(** ** Further properties of the two cells *)

Lemma mask_rows_none {A : Type} (m : list A) (mask : list bool) :
  (forall p, mask !! p <> Some true) -> Numpy.mask_rows m mask = [].
Proof.
  intros Hnone. destruct (Numpy.mask_rows m mask) as [| r l] eqn:E; [reflexivity |].
  assert (Hin : In r (Numpy.mask_rows m mask)) by (rewrite E; left; reflexivity).
  apply in_mask_rows in Hin as (p & _ & Hp). destruct (Hnone p Hp).
Qed.

Lemma multiprefs_liked_rows n t :
  multiprefs_of (liked_of n t)
  = (fun row => 1 <? Int64.wrap (Z.of_nat (count_above row t))) <$> n.
Proof.
  apply list_eq. intros p. rewrite multiprefs_liked_lookup, list_lookup_fmap.
  reflexivity.
Qed.

Lemma multiprefs_disliked_rows n t :
  multiprefs_of (disliked_of n t)
  = (fun row => 1 <? Int64.wrap (Z.of_nat (count_below row (Float.neg t)))) <$> n.
Proof.
  apply list_eq. intros p. rewrite multiprefs_disliked_lookup, list_lookup_fmap.
  reflexivity.
Qed.

Lemma count_true_fmap {A : Type} (f : A -> bool) (l : list A) :
  count_true (f <$> l) = length (List.filter f l).
Proof.
  unfold count_true. induction l as [| x l IH]; [reflexivity |].
  cbn [fmap list_fmap List.filter]. destruct (f x); simpl; [f_equal |]; exact IH.
Qed.

Lemma filter_ext_Forall {A : Type} (f g : A -> bool) (P : A -> Prop) (l : list A) :
  Forall P l -> (forall x, P x -> f x = g x) ->
  List.filter f l = List.filter g l.
Proof.
  intros Hall Hfg. induction Hall as [| x l Hx Hall IH]; [reflexivity |].
  simpl. rewrite (Hfg x Hx), IH. reflexivity.
Qed.

(** Below 2^63 the flag [sum > 1] is the comparison of the count. *)
Lemma flag_is_at_least_two (c : nat) :
  Z.of_nat c < 2 ^ 63 -> (1 <? Int64.wrap (Z.of_nat c)) = (2 <=? c)%nat.
Proof.
  intros Hc.
  rewrite wrap_small by (unfold Int64.in_range, Int64.min_int, Int64.max_int; lia).
  destruct (Z.ltb_spec 1 (Z.of_nat c)), (Nat.leb_spec 2 c); lia || reflexivity.
Qed.

Section CellsMore.

Context {G : Type} `{RandomSource G}.

(** X5. When no person has two likes or two dislikes (in particular when
    there is no person at all), the pair-construction cell returns with
    both pair lists empty, whatever [num_pods] and the fuel: the sampler
    is never called, the generator is not touched and nothing more is
    printed. *)
Theorem no_flagged_person_no_sampling (fuel num_pods : nat) (nl : loc)
    (t : Float.float64) (w : world G) n :
  heap w !! nl = Some (FloatMatrix n) ->
  Forall (fun row => (count_above row t < 2)%nat
                     /\ (count_below row (Float.neg t) < 2)%nat) n ->
  exists ns w1 ps w2,
    threshold_cell nl t w = (Return ns, w1)
    /\ pair_cell fuel num_pods ns w1 = (Return ps, w2)
    /\ potential_similar_pairs ps = []
    /\ potential_dissimilar_pairs ps = []
    /\ rng w2 = rng w
    /\ stdout w2 = stdout w1.
Proof.
  intros Hn Hnone. destruct w as [h g out]. cbn [heap] in Hn.
  assert (Hsim : similar_of n t = []).
  { rewrite similar_of_flat.
    rewrite !mask_rows_none; [reflexivity | |].
    - intros p. rewrite multiprefs_disliked_lookup.
      destruct (n !! p) as [row |] eqn:Hrow; [| discriminate]. simpl.
      rewrite Forall_forall in Hnone.
      destruct (Hnone row ltac:(apply list_elem_of_lookup; eauto)) as [_ Hc].
      intros [= E]. apply flag_at_least_two in E. lia.
    - intros p. rewrite multiprefs_liked_lookup.
      destruct (n !! p) as [row |] eqn:Hrow; [| discriminate]. simpl.
      rewrite Forall_forall in Hnone.
      destruct (Hnone row ltac:(apply list_elem_of_lookup; eauto)) as [Hc _].
      intros [= E]. apply flag_at_least_two in E. lia. }
  eexists _, _, _, _. split; [apply threshold_cell_run; exact Hn |].
  cbn [heap rng stdout]. rewrite pair_cell_run.
  unfold dissimilar_part. cbn [potential_similar_pairs both earlier
    contains_similar unique_similar_pairs]. rewrite Hsim.
  split; [reflexivity |]. cbn. auto.
Qed.

(** X6. The arrays keep the shape of [normed]: [liked], [disliked] (also
    after the in-place update) and [both] have its rows, cell for cell,
    and the two masks and [contains_similar] have one flag per person. *)
Theorem arrays_keep_shape (nl : loc) (t : Float.float64) (w : world G) n :
  heap w !! nl = Some (FloatMatrix n) ->
  exists ns w1 ps w2 L D B ML MD CS,
    threshold_cell nl t w = (Return ns, w1)
    /\ similar_part ns w1 = (Return ps, w2)
    /\ heap w2 !! liked ns = Some (IntMatrix L)
    /\ heap w2 !! disliked ns = Some (IntMatrix D)
    /\ heap w2 !! both ps = Some (IntMatrix B)
    /\ heap w2 !! multiprefs_liked ns = Some (BoolVector ML)
    /\ heap w2 !! multiprefs_disliked ns = Some (BoolVector MD)
    /\ heap w2 !! contains_similar ps = Some (BoolVector CS)
    /\ length <$> L = length <$> n
    /\ length <$> D = length <$> n
    /\ length <$> B = length <$> n
    /\ length ML = length n /\ length MD = length n /\ length CS = length n.
Proof.
  intros Hn. destruct w as [h g out]. cbn [heap] in Hn.
  eexists _, _, _, _, _, _, _, _, _, _.
  split; [apply threshold_cell_run; exact Hn |].
  split; [apply similar_part_run |].
  cbn [heap rng stdout both contains_similar].
  unfold names_thresholded, heap_paired.
  cbn [liked disliked multiprefs_liked multiprefs_disliked].
  split; [rewrite lookup_app_length; reflexivity |].
  do 5 (split; [rewrite lookup_app_plus; reflexivity |]).
  assert (Hrows : forall (A : Type) (f : Float.float64 -> A),
             length <$> (fmap (M:=list) (fmap (M:=list) f) n) = length <$> n).
  { intros A f. rewrite <- list_fmap_compose. apply list_fmap_ext.
    intros _ row _. simpl. apply length_fmap. }
  split; [rewrite liked_of_cells; apply Hrows |].
  split; [rewrite negated_cells; apply Hrows |].
  split; [rewrite both_of_cells; apply Hrows |].
  assert (HML : length (multiprefs_of (liked_of n t)) = length n)
    by (rewrite multiprefs_liked_rows; apply length_fmap).
  assert (HMD : length (multiprefs_of (disliked_of n t)) = length n)
    by (rewrite multiprefs_disliked_rows; apply length_fmap).
  split; [exact HML |]. split; [exact HMD |].
  unfold Numpy.bool_add. rewrite length_zip_with, HML, HMD. lia.
Qed.

(** X7. For a threshold above zero [both] encodes the scores: a cell is 1
    where the score is above the threshold, -1 where it is below the
    negated threshold, and 0 elsewhere; a NaN score gives 0. *)
Theorem both_encodes_scores (nl : loc) (t : Float.float64) (w : world G) n :
  heap w !! nl = Some (FloatMatrix n) ->
  Float.lt Float.zero t = true ->
  exists ns w1 ps w2 B,
    threshold_cell nl t w = (Return ns, w1)
    /\ similar_part ns w1 = (Return ps, w2)
    /\ heap w2 !! both ps = Some (IntMatrix B)
    /\ (forall p i,
          cell B p i
          = (fun x => if Float.gt x t then 1
                      else if Float.lt x (Float.neg t) then -1 else 0)
              <$> cell n p i)
    /\ forall p i, cell n p i = Some Float.NaN -> cell B p i = Some 0.
Proof.
  intros Hn Ht. destruct w as [h g out]. cbn [heap] in Hn.
  eexists _, _, _, _, _.
  split; [apply threshold_cell_run; exact Hn |].
  split; [apply similar_part_run |].
  cbn [heap both]. unfold heap_paired.
  split; [rewrite lookup_app_plus; reflexivity |].
  assert (Hcell : forall p i,
    cell (both_of n t) p i
    = (fun x => if Float.gt x t then 1
                else if Float.lt x (Float.neg t) then -1 else 0)
        <$> cell n p i).
  { intros p i. rewrite both_of_cells, cell_fmap.
    destruct (cell n p i) as [x |]; [| reflexivity]. simpl. f_equal.
    rewrite polarity_value.
    destruct (Float.gt x t) eqn:Hgt, (Float.lt x (Float.neg t)) eqn:Hlt;
      try reflexivity.
    destruct (above_below_exclusive x t Ht Hgt Hlt). }
  split; [exact Hcell |].
  intros p i Hnan. rewrite Hcell, Hnan. simpl. unfold Float.gt.
  destruct t; reflexivity.
Qed.

(** X8. The two lines the thresholding cell prints tell the truth: for
    rows shorter than 2^63 the numbers printed are the number of people
    with at least two scores above the threshold and the number of people
    with at least two scores below its negation. *)
Theorem printed_counts_are_right (nl : loc) (t : Float.float64) (w : world G) n :
  heap w !! nl = Some (FloatMatrix n) ->
  Forall (fun row : list Float.float64 => Z.of_nat (length row) < 2 ^ 63) n ->
  exists ns w1,
    threshold_cell nl t w = (Return ns, w1)
    /\ stdout w1
       = stdout w ++
         ["Number of people with 2 or more liked podcasts: "
            +:+ pretty (length (List.filter
                          (fun row => (2 <=? count_above row t)%nat) n));
          "Number of people with 2 or more disliked podcasts: "
            +:+ pretty (length (List.filter
                          (fun row => (2 <=? count_below row (Float.neg t))%nat) n))].
Proof.
  intros Hn Hlen. eexists _, _.
  split; [apply threshold_cell_run; exact Hn |]. cbn [stdout].
  rewrite multiprefs_liked_rows, multiprefs_disliked_rows, !count_true_fmap.
  rewrite (filter_ext_Forall
             (fun row => 1 <? Int64.wrap (Z.of_nat (count_above row t)))
             (fun row => (2 <=? count_above row t)%nat) _ n Hlen).
  2:{ intros row Hrow. apply flag_is_at_least_two.
      pose proof (filter_length_bound (fun x => Float.gt x t) row).
      unfold count_above. lia. }
  rewrite (filter_ext_Forall
             (fun row => 1 <? Int64.wrap (Z.of_nat (count_below row (Float.neg t))))
             (fun row => (2 <=? count_below row (Float.neg t))%nat) _ n Hlen).
  2:{ intros row Hrow. apply flag_is_at_least_two.
      pose proof (filter_length_bound (fun x => Float.lt x (Float.neg t)) row).
      unfold count_below. lia. }
  reflexivity.
Qed.

End CellsMore.

(** ** How many similar pairs, and how often each *)

Lemma length_flat_map_sum {A B : Type} (f : A -> list B) (l : list A) :
  length (flat_map f l) = sum_list_with (fun x => length (f x)) l.
Proof.
  induction l as [| x l IH]; simpl; [reflexivity |].
  rewrite length_app, IH. reflexivity.
Qed.

Lemma sum_list_with_In_ext {A : Type} (f g : A -> nat) (l : list A) :
  (forall x, In x l -> f x = g x) -> sum_list_with f l = sum_list_with g l.
Proof.
  intros E. induction l as [| x l IH]; simpl; [reflexivity |].
  rewrite (E x (or_introl eq_refl)), IH; [reflexivity |].
  intros y Hy. apply E. right. exact Hy.
Qed.

Lemma sum_list_with_const {A : Type} (c : nat) (l : list A) :
  sum_list_with (fun _ => c) l = (length l * c)%nat.
Proof. induction l as [| x l IH]; simpl; [reflexivity | rewrite IH; lia]. Qed.

(** One position struck out of a run of positions. *)
Lemma length_others (i a k : nat) :
  sum_list_with (fun j => if (i =? j)%nat then 0%nat else 1%nat) (seq a k)
  = (if (a <=? i)%nat && (i <? a + k)%nat then k - 1 else k)%nat.
Proof.
  revert a. induction k as [| k IH]; intros a; simpl.
  - destruct ((a <=? i)%nat && (i <? a + 0)%nat) eqn:E; [| reflexivity].
    apply andb_true_iff in E as [E1 E2].
    apply Nat.leb_le in E1. apply Nat.ltb_lt in E2. lia.
  - rewrite IH.
    repeat match goal with
           | |- context [(?x <=? ?y)%nat] => destruct (Nat.leb_spec x y)
           | |- context [(?x <? ?y)%nat] => destruct (Nat.ltb_spec x y)
           | |- context [(?x =? ?y)%nat] => destruct (Nat.eqb_spec x y)
           end; simpl; lia.
Qed.

(** [permutations(pool, 2)] yields [n * (n - 1)] tuples. *)
Lemma length_permutations2 {A : Type} (pool : list A) :
  length (Itertools.permutations2 pool) = (length pool * (length pool - 1))%nat.
Proof.
  unfold Itertools.permutations2. rewrite length_flat_map_sum.
  transitivity (sum_list_with (fun _ : nat => length pool - 1)%nat
                  (seq 0 (length pool)));
    [| rewrite sum_list_with_const, length_seq; reflexivity].
  apply sum_list_with_In_ext.
  intros i Hi. apply in_seq in Hi. rewrite length_flat_map_sum.
  destruct (lookup_lt_is_Some_2 pool i ltac:(lia)) as [a Ha]. rewrite Ha.
  erewrite sum_list_with_In_ext; [apply (eq_trans (length_others i 0 (length pool))) |].
  - destruct (Nat.leb_spec 0 i), (Nat.ltb_spec i (0 + length pool)); simpl; lia.
  - intros j Hj. apply in_seq in Hj.
    destruct (lookup_lt_is_Some_2 pool j ltac:(lia)) as [b Hb]. rewrite Hb.
    destruct (i =? j)%nat; reflexivity.
Qed.

Lemma occurrences_positive p l : In p l <-> (1 <= occurrences p l)%nat.
Proof.
  unfold occurrences. induction l as [| x l IH]; simpl.
  - split; [intros [] | lia].
  - destruct ((fst x =? fst p)%nat && (snd x =? snd p)%nat) eqn:E; simpl.
    + split; [lia |]. intros _. left.
      apply andb_true_iff in E as [E1 E2].
      apply Nat.eqb_eq in E1, E2. destruct x, p; simpl in *; congruence.
    + rewrite <- IH. split; [| auto].
      intros [-> | Hin]; [| exact Hin].
      rewrite !Nat.eqb_refl in E. discriminate.
Qed.

Lemma occurrences_NoDup p l : NoDup l -> (occurrences p l <= 1)%nat.
Proof.
  induction 1 as [| x l Hx Hl IH]; [unfold occurrences; simpl; lia |].
  change (x :: l) with ([x] ++ l). rewrite occurrences_app.
  unfold occurrences at 1. simpl.
  destruct ((fst x =? fst p)%nat && (snd x =? snd p)%nat) eqn:E; simpl; [| exact IH].
  apply andb_true_iff in E as [E1 E2]. apply Nat.eqb_eq in E1, E2.
  assert (x = p) by (destruct x, p; simpl in *; congruence). subst x.
  destruct (occurrences p l) eqn:Eocc; [lia |].
  exfalso. apply Hx. apply list_elem_of_In, occurrences_positive. lia.
Qed.

Lemma NoDup_flat_map {A B : Type} (f : A -> list B) (l : list A) :
  NoDup l ->
  (forall x, In x l -> NoDup (f x)) ->
  (forall x y z, In x l -> In y l -> In z (f x) -> In z (f y) -> x = y) ->
  NoDup (flat_map f l).
Proof.
  induction 1 as [| x l Hx Hl IH]; intros Heach Hapart; simpl; [constructor |].
  apply NoDup_app. split; [apply Heach; left; reflexivity |]. split.
  - intros z Hz Hz'. apply list_elem_of_In in Hz, Hz'.
    apply in_flat_map in Hz' as (y & Hy & Hzy).
    assert (x = y) by (apply (Hapart x y z); simpl; auto). subst y.
    apply Hx. apply list_elem_of_In. exact Hy.
  - apply IH.
    + intros y Hy. apply Heach. right. exact Hy.
    + intros y1 y2 z H1 H2. apply Hapart; right; assumption.
Qed.

Lemma permutations2_NoDup {A : Type} (pool : list A) :
  NoDup pool -> NoDup (Itertools.permutations2 pool).
Proof.
  intros Hpool. unfold Itertools.permutations2.
  apply NoDup_flat_map; [apply NoDup_seq | |].
  - intros i _. apply NoDup_flat_map; [apply NoDup_seq | |].
    + intros j _. destruct (i =? j)%nat; [constructor |].
      destruct (pool !! i), (pool !! j);
        first [apply NoDup_singleton | constructor].
    + intros j j' [a b] _ _ Hj Hj'.
      destruct (i =? j)%nat; [destruct Hj |].
      destruct (i =? j')%nat; [destruct Hj' |].
      destruct (pool !! i) as [x |]; [| destruct Hj].
      destruct (pool !! j) as [y |] eqn:Ey; [| destruct Hj].
      destruct (pool !! j') as [y' |] eqn:Ey'; [| destruct Hj'].
      destruct Hj as [[= <- <-] | []]. destruct Hj' as [[= Hy'] | []]. subst y'.
      exact (NoDup_lookup _ _ _ _ Hpool Ey Ey').
  - intros i i' [a b] _ _ Hi Hi'.
    apply in_flat_map in Hi as (j & _ & Hj).
    apply in_flat_map in Hi' as (j' & _ & Hj').
    destruct (i =? j)%nat; [destruct Hj |].
    destruct (i' =? j')%nat; [destruct Hj' |].
    destruct (pool !! i) as [x |] eqn:Ex; [| destruct Hj].
    destruct (pool !! j) as [y |]; [| destruct Hj].
    destruct (pool !! i') as [x' |] eqn:Ex'; [| destruct Hj'].
    destruct (pool !! j') as [y' |]; [| destruct Hj'].
    destruct Hj as [[= <- <-] | []]. destruct Hj' as [[= Hx' _] | []]. subst x'.
    exact (NoDup_lookup _ _ _ _ Hpool Ex Ex').
Qed.

(** What one person adds to the count of a pair of different columns. *)
Lemma occurrences_person_pairs (v : Z) (person : list Z) (i j : nat) :
  i <> j ->
  occurrences (i, j) (Itertools.permutations2 (Numpy.where_eq v person))
  = (if bool_decide (person !! i = Some v) && bool_decide (person !! j = Some v)
     then 1 else 0)%nat.
Proof.
  intros Hij.
  pose proof (occurrences_NoDup (i, j) _
                (permutations2_NoDup _ (where_from_NoDup 0 v person))) as Hle.
  pose proof (occurrences_positive (i, j)
                (Itertools.permutations2 (Numpy.where_eq v person))) as Hpos.
  rewrite in_person_pairs in Hpos.
  destruct (bool_decide_reflect (person !! i = Some v)) as [Hi | Hi];
    destruct (bool_decide_reflect (person !! j = Some v)) as [Hj | Hj]; simpl.
  - assert (1 <= occurrences (i, j)
                   (Itertools.permutations2 (Numpy.where_eq v person)))%nat
      by (apply Hpos; auto).
    unfold Numpy.where_eq in *. lia.
  - destruct (occurrences (i, j) _) eqn:E; [reflexivity |].
    exfalso. apply Hj. apply Hpos. lia.
  - destruct (occurrences (i, j) _) eqn:E; [reflexivity |].
    exfalso. apply Hi. apply Hpos. lia.
  - destruct (occurrences (i, j) _) eqn:E; [reflexivity |].
    exfalso. apply Hi. apply Hpos. lia.
Qed.

Lemma sum_indicator_filter {A : Type} (f : A -> bool) (l : list A) :
  sum_list_with (fun x => if f x then 1 else 0)%nat l = length (List.filter f l).
Proof.
  induction l as [| x l IH]; simpl; [reflexivity |].
  rewrite IH. destruct (f x); reflexivity.
Qed.

Lemma mask_rows_fmap {A B : Type} (f : A -> B) (m : list A) (mask : list bool) :
  Numpy.mask_rows (f <$> m) mask = f <$> Numpy.mask_rows m mask.
Proof.
  revert mask. induction m as [| x m IH]; intros [| b mask]; try reflexivity.
  cbn [fmap list_fmap Numpy.mask_rows]. destruct b.
  - cbn [fmap list_fmap]. f_equal. apply IH.
  - apply IH.
Qed.

Lemma sum_list_with_fmap {A B : Type} (f : A -> B) (g : B -> nat) (l : list A) :
  sum_list_with g (f <$> l) = sum_list_with (fun x => g (f x)) l.
Proof.
  induction l as [| x l IH]; [reflexivity |].
  cbn [fmap list_fmap sum_list_with]. f_equal. exact IH.
Qed.

Lemma length_where_from (k : nat) (v : Z) (row : list Z) :
  length (Numpy.where_from k v row) = length (List.filter (fun x => x =? v) row).
Proof.
  revert k. induction row as [| x row IH]; intros k; simpl; [reflexivity |].
  destruct (x =? v); simpl; rewrite IH; reflexivity.
Qed.

Lemma filter_fmap {A B : Type} (f : A -> B) (g : B -> bool) (l : list A) :
  length (List.filter g (f <$> l)) = length (List.filter (fun x => g (f x)) l).
Proof.
  induction l as [| x l IH]; [reflexivity |].
  cbn [fmap list_fmap List.filter]. destruct (g (f x)); simpl; rewrite IH; reflexivity.
Qed.

Lemma liked_columns (t : Float.float64) (row : list Float.float64) :
  Float.lt Float.zero t = true ->
  length (Numpy.where_eq 1 (polarity t <$> row)) = count_above row t.
Proof.
  intros Ht. unfold Numpy.where_eq, count_above.
  rewrite length_where_from, filter_fmap. f_equal.
  apply (filter_ext_Forall _ _ (fun _ => True)); [apply Forall_true; auto |].
  intros x _. destruct (Float.gt x t) eqn:Hgt.
  - rewrite (polarity_of_liked t x Ht Hgt). reflexivity.
  - rewrite polarity_value, Hgt.
    destruct (Float.lt x (Float.neg t)); reflexivity.
Qed.

Lemma disliked_columns (t : Float.float64) (row : list Float.float64) :
  Float.lt Float.zero t = true ->
  length (Numpy.where_eq (-1) (polarity t <$> row))
  = count_below row (Float.neg t).
Proof.
  intros Ht. unfold Numpy.where_eq, count_below.
  rewrite length_where_from, filter_fmap. f_equal.
  apply (filter_ext_Forall _ _ (fun _ => True)); [apply Forall_true; auto |].
  intros x _. destruct (Float.lt x (Float.neg t)) eqn:Hlt.
  - rewrite (polarity_of_disliked t x Ht Hlt). reflexivity.
  - rewrite polarity_value, Hlt.
    destruct (Float.gt x t); reflexivity.
Qed.

Section PairsMore.

Context {G : Type} `{RandomSource G}.

(** X9. For a threshold above zero the number of similar pairs is the sum
    of [L * (L - 1)] over the people flagged by [multiprefs_liked], [L]
    their number of liked podcasts, plus the sum of [D * (D - 1)] over the
    people flagged by [multiprefs_disliked], [D] their number of disliked
    podcasts. *)
Theorem similar_pairs_count (nl : loc) (t : Float.float64) (w : world G) n :
  heap w !! nl = Some (FloatMatrix n) ->
  Float.lt Float.zero t = true ->
  exists ns w1 ps w2 ML MD,
    threshold_cell nl t w = (Return ns, w1)
    /\ similar_part ns w1 = (Return ps, w2)
    /\ heap w2 !! multiprefs_liked ns = Some (BoolVector ML)
    /\ heap w2 !! multiprefs_disliked ns = Some (BoolVector MD)
    /\ length (potential_similar_pairs ps)
       = (sum_list_with
            (fun row => count_above row t * (count_above row t - 1))
            (Numpy.mask_rows n ML)
          + sum_list_with
              (fun row => count_below row (Float.neg t)
                          * (count_below row (Float.neg t) - 1))
              (Numpy.mask_rows n MD))%nat.
Proof.
  intros Hn Ht. destruct w as [h g out]. cbn [heap] in Hn.
  eexists _, _, _, _, _, _.
  split; [apply threshold_cell_run; exact Hn |].
  split; [apply similar_part_run |].
  cbn [heap potential_similar_pairs]. unfold names_thresholded, heap_paired.
  cbn [multiprefs_liked multiprefs_disliked].
  split; [rewrite lookup_app_plus; reflexivity |].
  split; [rewrite lookup_app_plus; reflexivity |].
  rewrite similar_of_flat, length_app, !length_flat_map_sum.
  rewrite both_of_cells, !mask_rows_fmap, !sum_list_with_fmap.
  f_equal; apply sum_list_with_ext; intros row;
    rewrite length_permutations2.
  - rewrite (liked_columns t row Ht). reflexivity.
  - rewrite (disliked_columns t row Ht). reflexivity.
Qed.

(** X10. A pair of two different columns occurs in
    [potential_similar_pairs] once for every person flagged by
    [multiprefs_liked] whose row of [both] holds 1 in both columns and
    once for every person flagged by [multiprefs_disliked] whose row holds
    -1 in both: the list is not deduplicated. *)
Theorem similar_pair_multiplicity (nl : loc) (t : Float.float64) (w : world G) n :
  heap w !! nl = Some (FloatMatrix n) ->
  exists ns w1 ps w2 B ML MD,
    threshold_cell nl t w = (Return ns, w1)
    /\ similar_part ns w1 = (Return ps, w2)
    /\ heap w2 !! both ps = Some (IntMatrix B)
    /\ heap w2 !! multiprefs_liked ns = Some (BoolVector ML)
    /\ heap w2 !! multiprefs_disliked ns = Some (BoolVector MD)
    /\ forall i j,
         i <> j ->
         occurrences (i, j) (potential_similar_pairs ps)
         = (length (List.filter
                      (fun person => bool_decide (person !! i = Some 1%Z)
                                     && bool_decide (person !! j = Some 1%Z))
                      (Numpy.mask_rows B ML))
            + length (List.filter
                        (fun person => bool_decide (person !! i = Some (-1)%Z)
                                       && bool_decide (person !! j = Some (-1)%Z))
                        (Numpy.mask_rows B MD)))%nat.
Proof.
  intros Hn. destruct w as [h g out]. cbn [heap] in Hn.
  eexists _, _, _, _, _, _, _.
  split; [apply threshold_cell_run; exact Hn |].
  split; [apply similar_part_run |].
  cbn [heap potential_similar_pairs both]. unfold names_thresholded, heap_paired.
  cbn [multiprefs_liked multiprefs_disliked].
  do 3 (split; [rewrite lookup_app_plus; reflexivity |]).
  intros i j Hij.
  rewrite similar_of_flat, occurrences_app, !occurrences_flat_map.
  rewrite <- !sum_indicator_filter.
  f_equal; apply sum_list_with_ext; intros person;
    apply occurrences_person_pairs; exact Hij.
Qed.

(** X11. [unique_similar_pairs] holds exactly the pairs of
    [potential_similar_pairs]: it has at most as many elements as the list
    is long, it holds the reverse of each of its pairs, and no pair of a
    column with itself. *)
Theorem unique_similar_pairs_is_the_set (nl : loc) (t : Float.float64)
    (w : world G) n :
  heap w !! nl = Some (FloatMatrix n) ->
  exists ns w1 ps w2,
    threshold_cell nl t w = (Return ns, w1)
    /\ similar_part ns w1 = (Return ps, w2)
    /\ (forall p, p ∈ unique_similar_pairs ps <-> In p (potential_similar_pairs ps))
    /\ (size (unique_similar_pairs ps) <= length (potential_similar_pairs ps))%nat
    /\ (forall i j, (i, j) ∈ unique_similar_pairs ps ->
                    (j, i) ∈ unique_similar_pairs ps)
    /\ forall i, (i, i) ∉ unique_similar_pairs ps.
Proof.
  intros Hn. destruct w as [h g out]. cbn [heap] in Hn.
  eexists _, _, _, _.
  split; [apply threshold_cell_run; exact Hn |].
  split; [apply similar_part_run |].
  cbn [unique_similar_pairs potential_similar_pairs].
  assert (Hmem : forall p : nat * nat,
             p ∈ (list_to_set (similar_of n t) : gset (nat * nat))
             <-> In p (similar_of n t))
    by (intros p; rewrite elem_of_list_to_set; apply list_elem_of_In).
  assert (Hpair : forall i j, In (i, j) (similar_of n t) ->
                              i <> j /\ In (j, i) (similar_of n t)).
  { intros i j. rewrite similar_of_flat, !in_app_iff, !in_flat_map.
    intros [(person & Hp & Hij) | (person & Hp & Hij)];
      apply in_person_pairs in Hij as (Hne & Hi & Hj);
      (split; [exact Hne |]); [left | right];
      exists person; (split; [exact Hp |]); apply in_person_pairs; auto. }
  split; [exact Hmem |]. split; [| split].
  - unfold size, set_size. simpl.
    apply NoDup_incl_length; [apply NoDup_ListNoDup, NoDup_elements |].
    intros p Hp. apply Hmem. apply elem_of_elements, list_elem_of_In. exact Hp.
  - intros i j Hij. apply Hmem. apply Hmem in Hij. apply Hpair. exact Hij.
  - intros i Hi. apply Hmem in Hi. apply Hpair in Hi as [Hne _]. apply Hne.
    reflexivity.
Qed.

End PairsMore.

(** ** The train/test cell *)

Lemma zip_labels {A : Type} (c : Z) (l : list A) :
  zip l ((fun _ => c) <$> l) = (fun x => (x, c)) <$> l.
Proof.
  induction l as [| x l IH]; [reflexivity |].
  cbn [fmap list_fmap zip_with]. f_equal. exact IH.
Qed.

Lemma zip_app_labels {A : Type} (l1 l2 : list A) (k1 k2 : list Z) :
  length l1 = length k1 ->
  zip (l1 ++ l2) (k1 ++ k2) = zip l1 k1 ++ zip l2 k2.
Proof.
  revert k1. induction l1 as [| x l1 IH]; intros [| y k1] Hlen;
    try discriminate; [reflexivity |].
  simpl. f_equal. apply IH. simpl in Hlen. lia.
Qed.

Lemma filter_length_Permutation {A : Type} (f : A -> bool) (l l' : list A) :
  Permutation l l' -> length (List.filter f l) = length (List.filter f l').
Proof.
  induction 1 as [| x l l' _ IH | x y l | l l' l'' _ IH1 _ IH2]; simpl.
  - reflexivity.
  - destruct (f x); simpl; rewrite IH; reflexivity.
  - destruct (f x), (f y); reflexivity.
  - rewrite IH1. exact IH2.
Qed.

Lemma count_label_labelled (c l : Z) (pairs : list (nat * nat)) :
  count_label l ((fun x => (x, c)) <$> pairs)
  = (if c =? l then length pairs else 0%nat).
Proof.
  unfold count_label. rewrite filter_fmap. cbn [snd].
  destruct (c =? l); induction pairs as [| x pairs IH]; simpl;
    try reflexivity; [f_equal |]; exact IH.
Qed.

(** Below 2^53 an integer is its own double. *)
Lemma round_to_double_small (a : Z) : a < 2 ^ 53 -> round_to_double a = a.
Proof.
  intros Ha. unfold round_to_double.
  destruct (Z.ltb_spec a (2 ^ 53)); [reflexivity | lia].
Qed.

(** For lengths below 2^51 no rounding takes place. *)
Lemma int_three_quarters_exact (k : nat) :
  Z.of_nat k < 2 ^ 51 ->
  int_three_quarters k = Z.to_nat (3 * Z.of_nat k / 4).
Proof.
  intros Hk. unfold int_three_quarters.
  rewrite (round_to_double_small (Z.of_nat k)) by lia.
  rewrite round_to_double_small by lia. reflexivity.
Qed.

(** The 8396 pairs of the notebook's run give its 6297 training
    examples; from 2^52 + 1 on the rounding shows. *)
Example three_quarters_notebook :
  round_to_double (3 * round_to_double 8396) / 4 = 6297.
Proof. reflexivity. Qed.

Example three_quarters_rounded :
  round_to_double (3 * round_to_double (2 ^ 52 + 1)) / 4 = 3 * (2 ^ 52 + 1) / 4 + 1
  /\ round_to_double (2 ^ 53 + 3) = 2 ^ 53 + 4
  /\ round_to_double (3 * round_to_double (2 ^ 53 + 3)) / 4 = 6755399441055747.
Proof. repeat split; reflexivity. Qed.

Section SplitMore.

Context {G : Type} `{ShuffleSource G}.

(** The train/test cell always returns; its names, draw by draw. *)
Lemma split_cell_run (ps : paired) (w : world G) :
  let d := shuffle_list _ (potential_dissimilar_pairs ps) (rng w) in
  let s := shuffle_list _ (potential_similar_pairs ps) (snd d) in
  let z := shuffle_list _
             (zip (fst s ++ fst d)
                  (((fun _ => 1) <$> fst s) ++ ((fun _ => 0) <$> fst d)))
             (snd s) in
  let k := int_three_quarters (length (fst s ++ fst d)) in
  exists r,
    split_cell ps w
    = (Return r,
       {| heap := heap w; rng := snd z;
          stdout := stdout w ++
            ["Training set:" +:+ tab +:+ pretty (length (take k (fst z)));
             "Testing set:" +:+ tab +:+ pretty (length (drop k (fst z)))] |})
    /\ similar r = fst s /\ dissimilar r = fst d
    /\ potential_similar_pairs (shuffled_pairs r) = fst s
    /\ potential_dissimilar_pairs (shuffled_pairs r) = fst d
    /\ Xs r = fst s ++ fst d
    /\ labels r = ((fun _ => 1) <$> fst s) ++ ((fun _ => 0) <$> fst d)
    /\ train_size r = k
    /\ shuffled r = fst z
    /\ train r = take k (fst z) /\ test r = drop k (fst z)
    /\ train_Xs r = fst <$> train r /\ train_ys r = snd <$> train r
    /\ test_Xs r = fst <$> test r /\ test_ys r = snd <$> test r.
Proof.
  intros d s z k. subst d s z k.
  unfold split_cell, random_shuffle, print, mbind, M_bind, mret, M_ret.
  destruct (shuffle_list _ (potential_dissimilar_pairs ps) (rng w)) as [d g1].
  cbn [rng fst snd].
  destruct (shuffle_list _ (potential_similar_pairs ps) g1) as [s g2].
  cbn [rng fst snd].
  destruct (shuffle_list _ _ g2) as [z g3]. cbn [rng fst snd heap stdout].
  eexists. split.
  - rewrite <- app_assoc. reflexivity.
  - cbn. auto 20.
Qed.

(** The two parts together are the labelled pairs, up to order. *)
Lemma split_parts_labelled (ps : paired) (w : world G) :
  exists r w',
    split_cell ps w = (Return r, w')
    /\ heap w' = heap w
    /\ Permutation (potential_similar_pairs (shuffled_pairs r))
                   (potential_similar_pairs ps)
    /\ Permutation (potential_dissimilar_pairs (shuffled_pairs r))
                   (potential_dissimilar_pairs ps)
    /\ Permutation (train r ++ test r)
         (((fun x => (x, 1)) <$> potential_similar_pairs ps)
          ++ ((fun x => (x, 0)) <$> potential_dissimilar_pairs ps)).
Proof.
  destruct (split_cell_run ps w)
    as (r & Hrun & _ & _ & Hs & Hd & _ & _ & _ & _ & Htrain & Htest & _).
  eexists r, _. split; [exact Hrun |]. cbn [heap].
  split; [reflexivity |].
  rewrite Hs, Hd, Htrain, Htest, take_drop.
  pose proof (shuffle_list_perm _ (potential_dissimilar_pairs ps) (rng w)) as Pd.
  set (d := shuffle_list _ (potential_dissimilar_pairs ps) (rng w)) in *.
  pose proof (shuffle_list_perm _ (potential_similar_pairs ps) (snd d)) as Ps.
  set (s := shuffle_list _ (potential_similar_pairs ps) (snd d)) in *.
  split; [exact Ps |]. split; [exact Pd |].
  etransitivity; [apply shuffle_list_perm |].
  rewrite zip_app_labels by (rewrite length_fmap; reflexivity).
  rewrite !zip_labels.
  apply Permutation_app; apply fmap_Permutation; assumption.
Qed.

(** The labels counted in a list of labelled similar and dissimilar
    pairs. *)
Lemma count_label_examples (l : Z) (sim dis : list (nat * nat))
    (examples : list ((nat * nat) * Z)) :
  Permutation examples
    (((fun x => (x, 1)) <$> sim) ++ ((fun x => (x, 0)) <$> dis)) ->
  count_label l examples
  = ((if (1 =? l)%Z then length sim else 0)
     + (if (0 =? l)%Z then length dis else 0))%nat.
Proof.
  intros Hperm. unfold count_label.
  rewrite (filter_length_Permutation _ _ _ Hperm), List.filter_app, length_app.
  f_equal; apply count_label_labelled.
Qed.

(** X12. The train/test cell loses and relabels nothing: its two parts
    together are, up to order, the similar pairs each with label 1 and the
    dissimilar pairs each with label 0, so there are as many examples of
    label 1 as similar pairs and as many of label 0 as dissimilar pairs;
    the two pair lists are reordered where they are, and no array is
    changed. *)
Theorem split_keeps_examples (ps : paired) (w : world G) :
  exists r w',
    split_cell ps w = (Return r, w')
    /\ heap w' = heap w
    /\ Permutation (potential_similar_pairs (shuffled_pairs r))
                   (potential_similar_pairs ps)
    /\ Permutation (potential_dissimilar_pairs (shuffled_pairs r))
                   (potential_dissimilar_pairs ps)
    /\ Permutation (train r ++ test r)
         (((fun x => (x, 1)) <$> potential_similar_pairs ps)
          ++ ((fun x => (x, 0)) <$> potential_dissimilar_pairs ps))
    /\ count_label 1 (train r ++ test r) = length (potential_similar_pairs ps)
    /\ count_label 0 (train r ++ test r) = length (potential_dissimilar_pairs ps).
Proof.
  destruct (split_parts_labelled ps w) as (r & w' & Hrun & Hheap & Ps & Pd & Pz).
  exists r, w'. split; [exact Hrun |]. split; [exact Hheap |].
  split; [exact Ps |]. split; [exact Pd |]. split; [exact Pz |].
  rewrite !(count_label_examples _ _ _ _ Pz). simpl. lia.
Qed.

(** X13. The sizes of the two parts: with [N] pairs in all, [N] below
    2^51 (where the product with 0.75 is exact in double precision), the
    training part has the integer part of [3 * N / 4] examples and the
    test part the rest; pairs and labels of a part are equally many; and
    these are the two numbers printed. *)
Theorem split_sizes (ps : paired) (w : world G) :
  Z.of_nat (length (potential_similar_pairs ps)
            + length (potential_dissimilar_pairs ps)) < 2 ^ 51 ->
  exists r w',
    split_cell ps w = (Return r, w')
    /\ train_size r
       = Z.to_nat (3 * Z.of_nat (length (potential_similar_pairs ps)
                                 + length (potential_dissimilar_pairs ps)) / 4)
    /\ length (train r) = train_size r
    /\ length (test r)
       = (length (potential_similar_pairs ps)
          + length (potential_dissimilar_pairs ps) - train_size r)%nat
    /\ length (train_Xs r) = length (train r)
    /\ length (train_ys r) = length (train r)
    /\ length (test_Xs r) = length (test r)
    /\ length (test_ys r) = length (test r)
    /\ stdout w'
       = stdout w ++
         ["Training set:" +:+ tab +:+ pretty (train_size r);
          "Testing set:" +:+ tab
            +:+ pretty (length (potential_similar_pairs ps)
                        + length (potential_dissimilar_pairs ps)
                        - train_size r)%nat].
Proof.
  intros Hbound.
  destruct (split_cell_run ps w)
    as (r & Hrun & _ & _ & _ & _ & _ & _ & Hk & _ & Htrain & Htest
        & HtX & Hty & HsX & Hsy).
  pose proof (shuffle_list_perm _ (potential_dissimilar_pairs ps) (rng w)) as Pd.
  set (d := shuffle_list _ (potential_dissimilar_pairs ps) (rng w)) in *.
  pose proof (shuffle_list_perm _ (potential_similar_pairs ps) (snd d)) as Ps.
  set (s := shuffle_list _ (potential_similar_pairs ps) (snd d)) in *.
  pose proof (shuffle_list_perm _
                (zip (fst s ++ fst d)
                     (((fun _ => 1) <$> fst s) ++ ((fun _ => 0) <$> fst d)))
                (snd s)) as Pz.
  set (z := shuffle_list _ _ (snd s)) in *.
  apply Permutation_length in Pd, Ps, Pz.
  assert (HN : length (fst s ++ fst d)
               = (length (potential_similar_pairs ps)
                  + length (potential_dissimilar_pairs ps))%nat)
    by (rewrite length_app; lia).
  assert (Hz : length (fst z)
               = (length (potential_similar_pairs ps)
                  + length (potential_dissimilar_pairs ps))%nat).
  { rewrite Pz, length_zip, !length_app, !length_fmap. lia. }
  assert (Hsize : train_size r
                  = Z.to_nat (3 * Z.of_nat (length (potential_similar_pairs ps)
                               + length (potential_dissimilar_pairs ps)) / 4))
    by (rewrite Hk, HN; apply int_three_quarters_exact; exact Hbound).
  assert (Hle : (train_size r <= length (potential_similar_pairs ps)
                                 + length (potential_dissimilar_pairs ps))%nat).
  { rewrite Hsize.
    set (N := (length (potential_similar_pairs ps)
               + length (potential_dissimilar_pairs ps))%nat).
    assert (3 * Z.of_nat N / 4 <= Z.of_nat N)
      by (apply Z.div_le_upper_bound; lia).
    lia. }
  assert (Hlt : length (train r) = train_size r)
    by (rewrite Htrain, Hk, length_take, <- Hk; lia).
  assert (Hls : length (test r)
                = (length (potential_similar_pairs ps)
                   + length (potential_dissimilar_pairs ps) - train_size r)%nat)
    by (rewrite Htest, Hk, length_drop, <- Hk; lia).
  eexists r, _. split; [exact Hrun |].
  split; [exact Hsize |]. split; [exact Hlt |]. split; [exact Hls |].
  split; [rewrite HtX; apply length_fmap |].
  split; [rewrite Hty; apply length_fmap |].
  split; [rewrite HsX; apply length_fmap |].
  split; [rewrite Hsy; apply length_fmap |].
  cbn [stdout]. rewrite <- Htrain, <- Htest, Hlt, Hls. reflexivity.
Qed.

End SplitMore.

(** ** The two cells, one after the other *)

Section Pipeline.

Context {G : Type} `{RandomSource G} `{ShuffleSource G}.

Lemma pair_cell_lengths (fuel num_pods : nat) (ns : thresholded)
    (w w' : world G) (ps : paired) :
  pair_cell fuel num_pods ns w = (Return ps, w') ->
  length (potential_dissimilar_pairs ps) = length (potential_similar_pairs ps).
Proof.
  unfold pair_cell, mbind, M_bind.
  destruct (similar_part ns w) as [[ps0 | e |] w0]; try discriminate.
  unfold dissimilar_part, mbind, M_bind.
  destruct (sample_dissimilar _ _ _ _ _ w0) as [[l | e |] w1] eqn:Esample;
    try discriminate.
  intros [= <- <-]. cbn [potential_dissimilar_pairs potential_similar_pairs].
  apply sample_dissimilar_calls in Esample as (pairs & -> & Hlen & _).
  exact Hlen.
Qed.

(** X14. When the pair-construction cell has run to its end, the
    train/test cell that follows returns a balanced set of examples: its
    two parts together hold as many examples of label 1 as of label 0,
    twice the number of similar pairs in all; and when that total is below
    2^51 (where the product with 0.75 is exact in double precision) the
    integer part of three halves of the number of similar pairs go to the
    training part. *)
Theorem examples_are_balanced (fuel num_pods : nat) (ns : thresholded)
    (w w1 : world G) (ps : paired) :
  pair_cell fuel num_pods ns w = (Return ps, w1) ->
  exists r w2,
    split_cell ps w1 = (Return r, w2)
    /\ count_label 1 (train r ++ test r) = count_label 0 (train r ++ test r)
    /\ length (train r ++ test r)
       = (2 * length (potential_similar_pairs ps))%nat
    /\ (2 * Z.of_nat (length (potential_similar_pairs ps)) < 2 ^ 51 ->
        length (train r)
        = Z.to_nat (3 * Z.of_nat (length (potential_similar_pairs ps)) / 2)).
Proof.
  intros Hrun. apply pair_cell_lengths in Hrun.
  destruct (split_parts_labelled ps w1) as (r & w2 & Hsplit & _ & _ & _ & Pz).
  exists r, w2. split; [exact Hsplit |].
  split; [rewrite !(count_label_examples _ _ _ _ Pz); simpl; lia |].
  assert (Hall : length (train r ++ test r)
                 = (2 * length (potential_similar_pairs ps))%nat).
  { rewrite (Permutation_length Pz), length_app, !length_fmap. lia. }
  split; [exact Hall |].
  intros Hbound.
  destruct (split_cell_run ps w1)
    as (r' & Hsplit' & Hsim & Hdis & _ & _ & _ & _ & _ & _ & Htrain & Htest & _).
  assert (r' = r) by congruence. subst r'.
  rewrite Htrain, Htest, take_drop in Hall.
  rewrite Htrain, length_take, Hall, length_app.
  rewrite (Permutation_length (shuffle_list_perm _ _ _)).
  rewrite (Permutation_length (shuffle_list_perm _ _ _)).
  rewrite Hrun.
  set (k := length (potential_similar_pairs ps)) in *.
  rewrite int_three_quarters_exact by lia.
  replace (3 * Z.of_nat (k + k) / 4) with (3 * Z.of_nat k / 2).
  - assert (3 * Z.of_nat k / 2 <= 2 * Z.of_nat k)
      by (apply Z.div_le_upper_bound; lia).
    lia.
  - replace (3 * Z.of_nat (k + k)) with ((3 * Z.of_nat k) * 2) by lia.
    replace 4 with (2 * 2) by reflexivity.
    rewrite Z.div_mul_cancel_r by lia. reflexivity.
Qed.

End Pipeline.

(** ** The further properties on the small run *)

Lemma dissimilar_pairs_neutral_first_witness :
  heap (demo_world demo_tape) !! 0%nat = Some (FloatMatrix demo_normed)
  /\ Float.lt Float.zero demo_threshold = true
  /\ exists ns w1,
       threshold_cell 0%nat demo_threshold (demo_world demo_tape) = (Return ns, w1)
       /\ forall ps w2,
           pair_cell 5 3 ns w1 = (Return ps, w2) ->
           forall f s,
             In (f, s) (potential_dissimilar_pairs ps) ->
             f <> s /\ (f < 3)%nat /\ (s < 3)%nat
             /\ exists p row,
                  demo_normed !! p = Some row
                  /\ is_Some (row !! f)
                  /\ ~ likes row demo_threshold f
                  /\ ~ dislikes row demo_threshold f.
Proof.
  split; [reflexivity |]. split; [reflexivity |].
  apply (dissimilar_pairs_neutral_first 5 3 0%nat demo_threshold
           (demo_world demo_tape) demo_normed); reflexivity.
Defined.

Lemma get_dissimilar_pair_needs_two_podcasts_witness :
  heap (demo_paired demo_tape []) !! 5%nat
  = Some (IntMatrix [[1; 1; 0]; [0; 0; 1]; [-1; 0; -1]])
  /\ [[1; 1; 0]; [0; 0; 1]; [-1; 0; -1]] <> []
  /\ (1 < 2)%nat
  /\ fst (get_dissimilar_pair 5 1 5%nat (demo_paired demo_tape []))
     = Raise ValueError.
Proof.
  split; [reflexivity |]. split; [discriminate |]. split; [lia |].
  apply (get_dissimilar_pair_needs_two_podcasts 4 1 5%nat
           (demo_paired demo_tape []) [[1; 1; 0]; [0; 0; 1]; [-1; 0; -1]]);
    [reflexivity | discriminate | lia].
Defined.

Lemma get_dissimilar_pair_first_neutral_witness :
  heap (demo_paired [2; 0; 0; 1; 0]%nat []) !! 5%nat
  = Some (IntMatrix [[1; 1; 0]; [0; 0; 1]; [-1; 0; -1]])
  /\ [[1; 1; 0]; [0; 0; 1]; [-1; 0; -1]] !! 2%nat = Some [-1; 0; -1]
  /\ [-1; 0; -1] !! fst (candidate 3 0 [0; 0; 1; 0]%nat) = Some (-1)
  /\ [-1; 0; -1] !! fst (candidate 3 1 [0; 0; 1; 0]%nat) = Some 0
  /\ get_dissimilar_pair 5 3 5%nat (demo_paired [2; 0; 0; 1; 0]%nat [])
     = (Return (1, 0)%nat, demo_paired [] []).
Proof.
  split; [reflexivity |]. split; [reflexivity |].
  split; [reflexivity |]. split; [reflexivity |].
  etransitivity;
    [apply (get_dissimilar_pair_first_neutral 5 3 1 5%nat
              (demo_paired [2; 0; 0; 1; 0]%nat [])
              [[1; 1; 0]; [0; 0; 1]; [-1; 0; -1]] [-1; 0; -1])
    | vm_compute; reflexivity].
  - reflexivity.
  - reflexivity.
  - lia.
  - intros i Hi. assert (i = 0%nat) by lia. subst i.
    exists (-1). split; [reflexivity |].
    unfold Int64.min_int, Int64.max_int. lia.
  - reflexivity.
  - lia.
Defined.

Lemma no_flagged_person_no_sampling_witness :
  heap {| heap := [FloatMatrix lonely_normed]; rng := demo_tape; stdout := [] |}
    !! 0%nat = Some (FloatMatrix lonely_normed)
  /\ Forall (fun row => (count_above row demo_threshold < 2)%nat
                        /\ (count_below row (Float.neg demo_threshold) < 2)%nat)
       lonely_normed
  /\ exists ns w1 ps w2,
       threshold_cell 0%nat demo_threshold
         {| heap := [FloatMatrix lonely_normed]; rng := demo_tape; stdout := [] |}
       = (Return ns, w1)
       /\ pair_cell 5 1 ns w1 = (Return ps, w2)
       /\ potential_similar_pairs ps = []
       /\ potential_dissimilar_pairs ps = []
       /\ rng w2 = demo_tape
       /\ stdout w2 = stdout w1.
Proof.
  assert (Hnone : Forall (fun row => (count_above row demo_threshold < 2)%nat
                            /\ (count_below row (Float.neg demo_threshold) < 2)%nat)
                    lonely_normed)
    by (repeat constructor; vm_compute; lia).
  split; [reflexivity |]. split; [exact Hnone |].
  apply (no_flagged_person_no_sampling 5 1 0%nat demo_threshold
           {| heap := [FloatMatrix lonely_normed]; rng := demo_tape; stdout := [] |}
           lonely_normed); [reflexivity | exact Hnone].
Defined.

Lemma arrays_keep_shape_witness :
  heap (demo_world demo_tape) !! 0%nat = Some (FloatMatrix demo_normed)
  /\ exists ns w1 ps w2 L D B ML MD CS,
       threshold_cell 0%nat demo_threshold (demo_world demo_tape) = (Return ns, w1)
       /\ similar_part ns w1 = (Return ps, w2)
       /\ heap w2 !! liked ns = Some (IntMatrix L)
       /\ heap w2 !! disliked ns = Some (IntMatrix D)
       /\ heap w2 !! both ps = Some (IntMatrix B)
       /\ heap w2 !! multiprefs_liked ns = Some (BoolVector ML)
       /\ heap w2 !! multiprefs_disliked ns = Some (BoolVector MD)
       /\ heap w2 !! contains_similar ps = Some (BoolVector CS)
       /\ length <$> L = length <$> demo_normed
       /\ length <$> D = length <$> demo_normed
       /\ length <$> B = length <$> demo_normed
       /\ length ML = length demo_normed /\ length MD = length demo_normed
       /\ length CS = length demo_normed.
Proof.
  split; [reflexivity |].
  apply (arrays_keep_shape 0%nat demo_threshold (demo_world demo_tape)
           demo_normed). reflexivity.
Defined.

Lemma both_encodes_scores_witness :
  heap (demo_world demo_tape) !! 0%nat = Some (FloatMatrix demo_normed)
  /\ Float.lt Float.zero demo_threshold = true
  /\ exists ns w1 ps w2 B,
       threshold_cell 0%nat demo_threshold (demo_world demo_tape) = (Return ns, w1)
       /\ similar_part ns w1 = (Return ps, w2)
       /\ heap w2 !! both ps = Some (IntMatrix B)
       /\ (forall p i,
             cell B p i
             = (fun x => if Float.gt x demo_threshold then 1
                         else if Float.lt x (Float.neg demo_threshold) then -1
                              else 0)
                 <$> cell demo_normed p i)
       /\ forall p i, cell demo_normed p i = Some Float.NaN -> cell B p i = Some 0.
Proof.
  split; [reflexivity |]. split; [reflexivity |].
  apply (both_encodes_scores 0%nat demo_threshold (demo_world demo_tape)
           demo_normed); reflexivity.
Defined.

Lemma printed_counts_are_right_witness :
  heap (demo_world demo_tape) !! 0%nat = Some (FloatMatrix demo_normed)
  /\ Forall (fun row : list Float.float64 => Z.of_nat (length row) < 2 ^ 63)
       demo_normed
  /\ exists ns w1,
       threshold_cell 0%nat demo_threshold (demo_world demo_tape) = (Return ns, w1)
       /\ stdout w1
          = stdout (demo_world demo_tape) ++
            ["Number of people with 2 or more liked podcasts: "
               +:+ pretty (length (List.filter
                             (fun row => (2 <=? count_above row demo_threshold)%nat)
                             demo_normed));
             "Number of people with 2 or more disliked podcasts: "
               +:+ pretty (length (List.filter
                             (fun row =>
                                (2 <=? count_below row (Float.neg demo_threshold))%nat)
                             demo_normed))].
Proof.
  assert (Hlen : Forall (fun row : list Float.float64 =>
                           Z.of_nat (length row) < 2 ^ 63) demo_normed)
    by (repeat constructor).
  split; [reflexivity |]. split; [exact Hlen |].
  apply (printed_counts_are_right 0%nat demo_threshold (demo_world demo_tape)
           demo_normed); [reflexivity | exact Hlen].
Defined.

Lemma similar_pairs_count_witness :
  heap (demo_world demo_tape) !! 0%nat = Some (FloatMatrix demo_normed)
  /\ Float.lt Float.zero demo_threshold = true
  /\ exists ns w1 ps w2 ML MD,
       threshold_cell 0%nat demo_threshold (demo_world demo_tape) = (Return ns, w1)
       /\ similar_part ns w1 = (Return ps, w2)
       /\ heap w2 !! multiprefs_liked ns = Some (BoolVector ML)
       /\ heap w2 !! multiprefs_disliked ns = Some (BoolVector MD)
       /\ length (potential_similar_pairs ps)
          = (sum_list_with
               (fun row => count_above row demo_threshold
                           * (count_above row demo_threshold - 1))
               (Numpy.mask_rows demo_normed ML)
             + sum_list_with
                 (fun row => count_below row (Float.neg demo_threshold)
                             * (count_below row (Float.neg demo_threshold) - 1))
                 (Numpy.mask_rows demo_normed MD))%nat.
Proof.
  split; [reflexivity |]. split; [reflexivity |].
  apply (similar_pairs_count 0%nat demo_threshold (demo_world demo_tape)
           demo_normed); reflexivity.
Defined.

Lemma similar_pair_multiplicity_witness :
  heap (demo_world demo_tape) !! 0%nat = Some (FloatMatrix demo_normed)
  /\ exists ns w1 ps w2 B ML MD,
       threshold_cell 0%nat demo_threshold (demo_world demo_tape) = (Return ns, w1)
       /\ similar_part ns w1 = (Return ps, w2)
       /\ heap w2 !! both ps = Some (IntMatrix B)
       /\ heap w2 !! multiprefs_liked ns = Some (BoolVector ML)
       /\ heap w2 !! multiprefs_disliked ns = Some (BoolVector MD)
       /\ forall i j,
            i <> j ->
            occurrences (i, j) (potential_similar_pairs ps)
            = (length (List.filter
                         (fun person => bool_decide (person !! i = Some 1%Z)
                                        && bool_decide (person !! j = Some 1%Z))
                         (Numpy.mask_rows B ML))
               + length (List.filter
                           (fun person => bool_decide (person !! i = Some (-1)%Z)
                                          && bool_decide (person !! j = Some (-1)%Z))
                           (Numpy.mask_rows B MD)))%nat.
Proof.
  split; [reflexivity |].
  apply (similar_pair_multiplicity 0%nat demo_threshold (demo_world demo_tape)
           demo_normed). reflexivity.
Defined.

Lemma unique_similar_pairs_is_the_set_witness :
  heap (demo_world demo_tape) !! 0%nat = Some (FloatMatrix demo_normed)
  /\ exists ns w1 ps w2,
       threshold_cell 0%nat demo_threshold (demo_world demo_tape) = (Return ns, w1)
       /\ similar_part ns w1 = (Return ps, w2)
       /\ (forall p, p ∈ unique_similar_pairs ps
                     <-> In p (potential_similar_pairs ps))
       /\ (size (unique_similar_pairs ps)
           <= length (potential_similar_pairs ps))%nat
       /\ (forall i j, (i, j) ∈ unique_similar_pairs ps ->
                       (j, i) ∈ unique_similar_pairs ps)
       /\ forall i, (i, i) ∉ unique_similar_pairs ps.
Proof.
  split; [reflexivity |].
  apply (unique_similar_pairs_is_the_set 0%nat demo_threshold
           (demo_world demo_tape) demo_normed). reflexivity.
Defined.

Lemma examples_are_balanced_witness :
  pair_cell 5 3 demo_names (demo_thresholded demo_tape [])
  = (Return demo_pairs, demo_paired [] [])
  /\ exists r w2,
       split_cell demo_pairs (demo_paired [] []) = (Return r, w2)
       /\ count_label 1 (train r ++ test r) = count_label 0 (train r ++ test r)
       /\ length (train r ++ test r)
          = (2 * length (potential_similar_pairs demo_pairs))%nat
       /\ (2 * Z.of_nat (length (potential_similar_pairs demo_pairs)) < 2 ^ 51 ->
           length (train r)
           = Z.to_nat (3 * Z.of_nat (length (potential_similar_pairs demo_pairs)) / 2)).
Proof.
  assert (E : pair_cell 5 3 demo_names (demo_thresholded demo_tape [])
              = (Return demo_pairs, demo_paired [] []))
    by (vm_compute; reflexivity).
  split; [exact E |].
  exact (examples_are_balanced 5 3 demo_names (demo_thresholded demo_tape [])
           (demo_paired [] []) demo_pairs E).
Defined.

Lemma split_sizes_witness :
  Z.of_nat (length (potential_similar_pairs demo_pairs)
            + length (potential_dissimilar_pairs demo_pairs)) < 2 ^ 51
  /\ exists r w',
       split_cell demo_pairs (demo_paired demo_tape []) = (Return r, w')
       /\ train_size r
          = Z.to_nat (3 * Z.of_nat (length (potential_similar_pairs demo_pairs)
                                    + length (potential_dissimilar_pairs demo_pairs))
                      / 4)
       /\ length (train r) = train_size r
       /\ length (test r)
          = (length (potential_similar_pairs demo_pairs)
             + length (potential_dissimilar_pairs demo_pairs) - train_size r)%nat
       /\ length (train_Xs r) = length (train r)
       /\ length (train_ys r) = length (train r)
       /\ length (test_Xs r) = length (test r)
       /\ length (test_ys r) = length (test r)
       /\ stdout w'
          = stdout (demo_paired demo_tape []) ++
            ["Training set:" +:+ tab +:+ pretty (train_size r);
             "Testing set:" +:+ tab
               +:+ pretty (length (potential_similar_pairs demo_pairs)
                           + length (potential_dissimilar_pairs demo_pairs)
                           - train_size r)%nat].
Proof.
  assert (Hbound : Z.of_nat (length (potential_similar_pairs demo_pairs)
                             + length (potential_dissimilar_pairs demo_pairs))
                   < 2 ^ 51) by (simpl; lia).
  split; [exact Hbound |].
  exact (split_sizes demo_pairs (demo_paired demo_tape []) Hbound).
Defined.
